(** * quicklang-bot: message routing, command registry, configuration, logger

    A shallow embedding of
      - [src/lib/TelegramBotService.ts]  (registry and router),
      - [src/config/envConfig.ts]        (environment configuration),
      - [src/helpers/logger.ts]          (logger),
    together with the fragment of the JavaScript runtime and of the
    chat-transport client that these files call into.

    Strings are sequences of code units restricted to U+0000..U+00FF, one
    [ascii] per code unit.  User callbacks are opaque: a callback is named
    by an identifier and an invocation is recorded in a trace. *)

From Stdlib Require Import Ascii String.
From stdpp Require Import base option list strings gmap.

Local Open Scope string_scope.

(** ** The JavaScript runtime, as far as the sources use it *)

Module JS.

(** [String.prototype.toLowerCase] on one code unit of the Latin-1 range:
    A-Z, and the accented capitals U+00C0..U+00DE except the
    multiplication sign U+00D7, move up by 32. *)
Definition isUpperCase (c : ascii) : bool :=
  let n := nat_of_ascii c in
  (((65 <=? n) && (n <=? 90))
   || ((192 <=? n) && (n <=? 222) && negb (n =? 215)))%nat.

Definition charToLowerCase (c : ascii) : ascii :=
  if isUpperCase c then ascii_of_nat (nat_of_ascii c + 32) else c.

Fixpoint toLowerCase (s : string) : string :=
  match s with
  | EmptyString => EmptyString
  | String c s' => String (charToLowerCase c) (toLowerCase s')
  end.

(** [s.startsWith(p)]. *)
Definition startsWith (s p : string) : bool := String.prefix p s.

(** [s.includes(needle)]: some suffix of [s] starts with [needle]. *)
Fixpoint includes (s needle : string) : bool :=
  startsWith s needle
  || match s with
     | EmptyString => false
     | String _ s' => includes s' needle
     end.

(** Truthiness of an optional string: [undefined] and [''] are falsy. *)
Definition truthy (v : option string) : bool :=
  match v with
  | Some (String _ _) => true
  | _ => false
  end.

(** [v || d] for an optional string [v]. *)
Definition or_else (v : option string) (d : string) : string :=
  match v with
  | Some (String c s) => String c s
  | _ => d
  end.

(** *** Regular expressions

    The fragment of the pattern language modelled here: a disjunction of
    alternatives, each a sequence of the assertions [^] and [$], the
    wildcard [.] and literal characters.  Patterns that use any other
    syntax character are outside the fragment, and so are flags: a pattern
    here is neither global nor sticky, so [test] and [exec] always search
    from the start of the input and leave the pattern as it was. *)

Inductive atom : Type :=
| AssertStart            (* ^ *)
| AssertEnd              (* $ *)
| AnyChar                (* . *)
| Lit (c : ascii).

Definition alternative : Type := list atom.

Record RegExp : Type := mkRegExp { disjunction : list alternative }.

(** The syntax characters of the pattern grammar:  ^ $ \ . * + ? ( ) [ ] { } |  *)
Definition isSyntaxCharacter (c : ascii) : bool :=
  bool_decide (c ∈ list_ascii_of_string "^$\.*+?()[]{}|").

Definition atom_of_char (c : ascii) : option atom :=
  if Ascii.eqb c "^" then Some AssertStart
  else if Ascii.eqb c "$" then Some AssertEnd
  else if Ascii.eqb c "." then Some AnyChar
  else if isSyntaxCharacter c then None
  else Some (Lit c).

(** Parsing a pattern source.  [None]: the source is outside the fragment,
    which covers the sources that [new RegExp] rejects. *)
Fixpoint parse (src : string) : option (list alternative) :=
  match src with
  | EmptyString => Some [[]]
  | String c src' =>
      match parse src' with
      | None => None
      | Some alts =>
          if Ascii.eqb c "|" then Some ([] :: alts)
          else
            match atom_of_char c, alts with
            | Some a, alt :: rest => Some ((a :: alt) :: rest)
            | _, _ => None
            end
      end
  end.

(** [new RegExp(src)]. *)
Definition RegExp_new (src : string) : option RegExp :=
  mkRegExp <$> parse src.

(** Line terminators of the Latin-1 range: LF and CR. *)
Definition isLineTerminator (c : ascii) : bool :=
  let n := nat_of_ascii c in ((n =? 10) || (n =? 13))%nat.

(** Does [alt] match at position [pos] of the input, [rest] being the
    input from that position on? *)
Fixpoint match_alternative (alt : alternative) (pos : nat) (rest : string)
  : bool :=
  match alt with
  | [] => true
  | AssertStart :: alt' => (pos =? 0)%nat && match_alternative alt' pos rest
  | AssertEnd :: alt' =>
      match rest with
      | EmptyString => match_alternative alt' pos rest
      | String _ _ => false
      end
  | AnyChar :: alt' =>
      match rest with
      | EmptyString => false
      | String c rest' =>
          negb (isLineTerminator c) && match_alternative alt' (S pos) rest'
      end
  | Lit c :: alt' =>
      match rest with
      | EmptyString => false
      | String c' rest' =>
          Ascii.eqb c c' && match_alternative alt' (S pos) rest'
      end
  end.

Definition match_at (re : RegExp) (pos : nat) (rest : string) : bool :=
  existsb (fun alt => match_alternative alt pos rest) (disjunction re).

(** The search of [exec]/[test]: try position [pos], then the next one,
    up to and including the end of the input. *)
Fixpoint search (re : RegExp) (pos : nat) (rest : string) : bool :=
  match_at re pos rest
  || match rest with
     | EmptyString => false
     | String _ rest' => search re (S pos) rest'
     end.

(** [re.test(text)], equally [re.exec(text) !== null]. *)
Definition RegExp_test (re : RegExp) (text : string) : bool :=
  search re 0 text.

End JS.

Import JS.

(** ** The chat-transport client (package node-telegram-bot-api)

    The part of the client object that [TelegramBotService] drives: the
    listeners added with [on], the pattern callbacks added with [onText]
    and the command menus handed to [setMyCommands].  [L] is the type of
    event listeners and [C] the type of pattern callbacks. *)

Module TelegramBot.

Record Message : Type := mkMessage {
  message_id : Z;
  chat_id : Z;
  text : option string            (* [text?: string] *)
}.

Record BotCommand : Type := mkBotCommand {
  command : string;
  description : string
}.

Record ConstructorOptions : Type := mkOptions {
  polling : bool;
  onlyFirstMatch : bool           (* absent counts as [false] *)
}.

Section Client.
Context {L C : Type}.

Record t : Type := mkBot {
  token : string;
  options : ConstructorOptions;
  listeners : list (string * L);
  textRegexpCallbacks : list (RegExp * C);
  myCommands : list (list BotCommand)   (* one entry per [setMyCommands] call *)
}.

(** [new TelegramBot(token, options)]. *)
Definition new (tok : string) (opts : ConstructorOptions) : t :=
  {| token := tok; options := opts; listeners := [];
     textRegexpCallbacks := []; myCommands := [] |}.

(** [bot.on(event, listener)]. *)
Definition on (event : string) (l : L) (b : t) : t :=
  {| token := token b; options := options b;
     listeners := listeners b ++ [(event, l)];
     textRegexpCallbacks := textRegexpCallbacks b;
     myCommands := myCommands b |}.

(** [bot.onText(regexp, callback)]. *)
Definition onText (re : RegExp) (cb : C) (b : t) : t :=
  {| token := token b; options := options b;
     listeners := listeners b;
     textRegexpCallbacks := textRegexpCallbacks b ++ [(re, cb)];
     myCommands := myCommands b |}.

(** [bot.setMyCommands(commands)]. *)
Definition setMyCommands (cmds : list BotCommand) (b : t) : t :=
  {| token := token b; options := options b;
     listeners := listeners b;
     textRegexpCallbacks := textRegexpCallbacks b;
     myCommands := myCommands b ++ [cmds] |}.

(** [bot.emit(event, ...)]: the listeners of [event], oldest first. *)
Definition emit (event : string) (b : t) : list L :=
  snd <$> filter (fun el => fst el = event) (listeners b).

(** The pattern callbacks run for a text: the client walks
    [textRegexpCallbacks] in order, runs the callback of every entry
    whose pattern matches, and stops after the first such entry when
    the option [onlyFirstMatch] is set. *)
Fixpoint matchText (only_first : bool) (regs : list (RegExp * C))
         (txt : string) : list C :=
  match regs with
  | [] => []
  | (re, cb) :: regs' =>
      if RegExp_test re txt
      then cb :: (if only_first then [] else matchText only_first regs' txt)
      else matchText only_first regs' txt
  end.

(** The pattern callbacks the client runs for a message: none when the
    message has no text. *)
Definition textCallbacks (b : t) (msg : Message) : list C :=
  match text msg with
  | Some (String c txt) =>
      matchText (onlyFirstMatch (options b)) (textRegexpCallbacks b)
                (String c txt)
  | _ => []
  end.

(** [bot.processUpdate(update)] for an update that carries a message: the
    event ["message"] is emitted to its listeners, then the pattern
    callbacks are run.  [listen] and [invoke] say what running a listener
    and running a callback do. *)
Definition processUpdate {E : Type}
           (listen : L -> Message -> list E) (invoke : C -> Message -> list E)
           (b : t) (msg : Message) : list E :=
  (emit "message" b ≫= fun l => listen l msg)
  ++ (textCallbacks b msg ≫= fun cb => invoke cb msg).

End Client.
Arguments t : clear implicits.

End TelegramBot.

(** ** src/lib/TelegramBotService.ts *)

(** A user callback, named by an identifier. *)
Definition callback : Type := nat.

Module CommandHandler.
Record t : Type := mk {
  command : string;
  description : string;
  handler : callback
}.
End CommandHandler.

Module MessageHandler.
(** [trigger: string | RegExp] *)
Inductive trigger_t : Type :=
| Str (s : string)
| Re (re : RegExp).

Record t : Type := mk {
  trigger : trigger_t;
  handler : callback
}.
End MessageHandler.

Module TelegramBotService.

(** The three listeners installed by [initializeEventListeners]. *)
Inductive listener : Type :=
| PollingErrorListener
| MessageListener
| CallbackQueryListener.

Abbreviation Bot := (TelegramBot.t listener callback).

Record t : Type := mk {
  bot : Bot;
  commands : list CommandHandler.t;
  messageHandlers : list MessageHandler.t
}.

(** What a delivery does, in order: a trigger is evaluated against the
    text, the handler of a message handler is called, the handler of a
    command is called. *)
Inductive event : Type :=
| Evaluated (h : MessageHandler.t)
| MessageHandlerCalled (cb : callback) (msg : TelegramBot.Message)
| CommandHandlerCalled (cb : callback) (msg : TelegramBot.Message).

Definition initializeEventListeners (b : Bot) : Bot :=
  TelegramBot.on "callback_query" CallbackQueryListener
    (TelegramBot.on "message" MessageListener
      (TelegramBot.on "polling_error" PollingErrorListener b)).

(** The default of the constructor's second parameter: [{ polling: true }]. *)
Definition defaultOptions : TelegramBot.ConstructorOptions :=
  {| TelegramBot.polling := true; TelegramBot.onlyFirstMatch := false |}.

Definition new (token : string) (options : TelegramBot.ConstructorOptions) : t :=
  {| bot := initializeEventListeners (TelegramBot.new token options);
     commands := [];
     messageHandlers := [] |}.

(** The two tests of the loop body of [handleMessage]. *)
Definition triggerMatches (tr : MessageHandler.trigger_t) (txt : string)
  : bool :=
  match tr with
  | MessageHandler.Str s => includes (toLowerCase txt) (toLowerCase s)
  | MessageHandler.Re re => RegExp_test re txt
  end.

(** The [for ... of this.messageHandlers] loop. *)
Fixpoint handleMessage_loop (hs : list MessageHandler.t)
         (msg : TelegramBot.Message) (txt : string) : list event :=
  match hs with
  | [] => []
  | h :: hs' =>
      Evaluated h ::
      if triggerMatches (MessageHandler.trigger h) txt
      then [MessageHandlerCalled (MessageHandler.handler h) msg]   (* return *)
      else handleMessage_loop hs' msg txt
  end.

Definition handleMessage (s : t) (msg : TelegramBot.Message) : list event :=
  match TelegramBot.text msg with
  | Some (String c txt) =>
      handleMessage_loop (messageHandlers s) msg (String c txt)
  | _ => []                                    (* if (!msg.text) return *)
  end.

(** How a call of [registerCommand] ends. *)
Inductive completion : Type :=
| Returned (s : t)
| NoPattern (s : t).   (* [new RegExp] gave no pattern of the fragment;
                          [s] is the state reached at that point *)

Definition state_of (r : completion) : t :=
  match r with Returned s | NoPattern s => s end.

Definition registerCommand (command : CommandHandler.t) (s : t) : completion :=
  let s1 := {| bot := bot s;
               commands := commands s ++ [command];        (* push *)
               messageHandlers := messageHandlers s |} in
  match RegExp_new ("^/" ++ CommandHandler.command command) with
  | Some re =>
      Returned {| bot := TelegramBot.onText re (CommandHandler.handler command) (bot s1);
                  commands := commands s1;
                  messageHandlers := messageHandlers s1 |}
  | None => NoPattern s1
  end.

Definition registerMessageHandler (handler : MessageHandler.t) (s : t) : t :=
  {| bot := bot s;
     commands := commands s;
     messageHandlers := messageHandlers s ++ [handler] |}.

Definition botCommand (cmd : CommandHandler.t) : TelegramBot.BotCommand :=
  {| TelegramBot.command := CommandHandler.command cmd;
     TelegramBot.description := CommandHandler.description cmd |}.

Definition setCommands (s : t) : t :=
  let botCommands := botCommand <$> commands s in
  {| bot := TelegramBot.setMyCommands botCommands (bot s);
     commands := commands s;
     messageHandlers := messageHandlers s |}.

(** *** Delivery of one inbound message

    The listener of line 38 calls [handleMessage]; the other two listeners
    are not concerned by messages.  The pattern callback added by
    [registerCommand] calls the handler of its command. *)
Definition runListener (s : t) (l : listener) (msg : TelegramBot.Message)
  : list event :=
  match l with
  | MessageListener => handleMessage s msg
  | PollingErrorListener | CallbackQueryListener => []
  end.

Definition runCallback (cb : callback) (msg : TelegramBot.Message)
  : list event :=
  [CommandHandlerCalled cb msg].

Definition deliver (s : t) (msg : TelegramBot.Message) : list event :=
  TelegramBot.processUpdate (runListener s) runCallback (bot s) msg.

(** The command handlers called in a delivery. *)
Definition commandCalls (s : t) (msg : TelegramBot.Message) : list event :=
  (fun cb => CommandHandlerCalled cb msg)
    <$> TelegramBot.textCallbacks (bot s) msg.

(** The calls a client of the service can make, and their effect on it. *)
Inductive call : Type :=
| RegisterCommand (command : CommandHandler.t)
| RegisterMessageHandler (handler : MessageHandler.t)
| SetCommands.

Definition step (s : t) (c : call) : t :=
  match c with
  | RegisterCommand command => state_of (registerCommand command s)
  | RegisterMessageHandler handler => registerMessageHandler handler s
  | SetCommands => setCommands s
  end.

Definition run (cs : list call) (s : t) : t := foldl step s cs.

(** The handler calls of a trace. *)
Definition isCall (e : event) : bool :=
  match e with
  | Evaluated _ => false
  | MessageHandlerCalled _ _ | CommandHandlerCalled _ _ => true
  end.


Definition calls (tr : list event) : list event := filter isCall tr.

End TelegramBotService.

(** ** src/config/envConfig.ts *)

Module EnvConfig.

Record t : Type := mk {
  telegramToken : string;
  googleKeyFilePath : string;
  spreadsheetId : string
}.

(** [env] is [process.env]: a variable that is not set reads as
    [undefined], here [None]. *)
Definition envConfig (env : gmap string string) : t :=
  {| telegramToken := or_else (env !! "TELEGRAM_TOKEN") "";
     googleKeyFilePath := or_else (env !! "GOOGLE_KEY_FILE_PATH") "";
     spreadsheetId := or_else (env !! "GOOGLE_SPREADSHEET_ID") "" |}.

End EnvConfig.

(** ** src/helpers/logger.ts *)

Module Logger.

Inductive LogLevel : Type := Info | Warn | Error | Debug.

(** A string styled by chalk; [None]: left as it is. *)
Inductive color : Type := green | yellow | red | gray.
Record styled : Type := chalk { style : option color; content : string }.

Inductive output : Type :=
| ConsoleLog (s : styled)
| ConsoleError (s : styled).

(** What [log] reads and writes: the clock, the files and the console.
    [appendError p] is the error [fs.appendFileSync] throws on path [p],
    rendered as a string, if it throws. *)
Record World : Type := mkWorld {
  now : string;                         (* [new Date().toISOString()] *)
  files : gmap string string;
  appendError : string -> option string;
  console : list output
}.

Definition console_log (x : styled) (w : World) : World :=
  {| now := now w; files := files w; appendError := appendError w;
     console := console w ++ [ConsoleLog x] |}.

Definition console_error (x : styled) (w : World) : World :=
  {| now := now w; files := files w; appendError := appendError w;
     console := console w ++ [ConsoleError x] |}.

(** [fs.appendFileSync(path, data)]: the file is created when absent. *)
Definition appendFileSync (path data : string) (w : World) : World + string :=
  match appendError w path with
  | Some err => inr err
  | None =>
      inl {| now := now w;
             files := <[path := default "" (files w !! path) ++ data]> (files w);
             appendError := appendError w;
             console := console w |}
  end.

Definition LF : string := String (ascii_of_nat 10) "".

Record t : Type := mk {
  prefix : string;
  logFile : string
}.

(** The constructor; [join] is [path.join] and [dirname] is [__dirname]. *)
Definition new (join : string -> string -> string) (dirname : string)
           (prefix logFile : string) : t :=
  {| prefix := prefix; logFile := join dirname logFile |}.

Definition getColoredMessage (level : LogLevel) (message : string) : styled :=
  match level with
  | Info => chalk (Some green) message
  | Warn => chalk (Some yellow) message
  | Error => chalk (Some red) message
  | Debug => chalk (Some gray) message
  end.

Definition logMessage (this : t) (timestamp message : string) : string :=
  "[" ++ timestamp ++ "]"
  ++ (if (0 <? String.length (prefix this))%nat then prefix this ++ " " else "")
  ++ ": " ++ message.

Definition log (this : t) (level : LogLevel) (message : string) (w : World)
  : World :=
  let timestamp := now w in
  let logMessage := logMessage this timestamp message in
  let coloredMessage := getColoredMessage level logMessage in
  let w := console_log coloredMessage w in
  match appendFileSync (logFile this) (logMessage ++ LF) w with
  | inl w' => w'
  | inr error =>
      console_error
        (chalk (Some red)
           ("[LOGGER ERROR]: Unable to write to file - " ++ error)) w
  end.

Definition info (this : t) := log this Info.
Definition warn (this : t) := log this Warn.
Definition error (this : t) := log this Error.
Definition debug (this : t) := log this Debug.

End Logger.

Import TelegramBotService.

(** The commands, and the message handlers, a sequence of calls registers. *)
Definition registeredCommands (cs : list call) : list CommandHandler.t :=
  omap (fun c => match c with RegisterCommand x => Some x | _ => None end) cs.

Definition registeredMessageHandlers (cs : list call) : list MessageHandler.t :=
  omap (fun c => match c with RegisterMessageHandler x => Some x | _ => None end) cs.

(** Does the pattern that [registerCommand] builds for [command] match
    [txt]?  [None]: the pattern is outside the fragment. *)
Definition commandMatches (command : CommandHandler.t) (txt : string)
  : option bool :=
  (fun re => RegExp_test re txt)
    <$> RegExp_new ("^/" +:+ CommandHandler.command command).

(** The pattern callback [registerCommand] adds for [command], if any. *)
Definition patternCallback (command : CommandHandler.t)
  : option (RegExp * callback) :=
  (fun re => (re, CommandHandler.handler command))
    <$> RegExp_new ("^/" +:+ CommandHandler.command command).

(** A name all of whose characters stand for themselves in a pattern. *)
Fixpoint isLiteralName (name : string) : bool :=
  match name with
  | EmptyString => true
  | String c name' => negb (isSyntaxCharacter c) && isLiteralName name'
  end.

(** The atoms a literal name parses to. *)
Fixpoint literals (name : string) : alternative :=
  match name with
  | EmptyString => []
  | String c name' => Lit c :: literals name'
  end.

(** ** Containment under case-insensitive comparison, in the spec's words

    Two code units are the same letter when they are equal or are the
    capital and the small form of one letter; two strings are equal
    ignoring case when they have the same letters position by position; a
    text contains a trigger when some stretch of the text equals the
    trigger ignoring case. *)

Definition capitalLetters : list ascii :=
  (list_ascii_of_string "ABCDEFGHIJKLMNOPQRSTUVWXYZ"
   ++ (ascii_of_nat <$> (seq 192 23 ++ seq 216 7)))%list.

Definition smallLetters : list ascii :=
  (list_ascii_of_string "abcdefghijklmnopqrstuvwxyz"
   ++ (ascii_of_nat <$> (seq 224 23 ++ seq 248 7)))%list.

Definition letterPairs : list (ascii * ascii) := zip capitalLetters smallLetters.

Definition sameLetter (a b : ascii) : Prop :=
  a = b \/ (a, b) ∈ letterPairs \/ (b, a) ∈ letterPairs.

#[local] Instance sameLetter_dec (a b : ascii) : Decision (sameLetter a b).
Proof. unfold sameLetter. apply _. Defined.




(** ** Sample registries and messages *)

Module Sample.

Definition message (txt : string) : TelegramBot.Message :=
  {| TelegramBot.message_id := 1; TelegramBot.chat_id := 42;
     TelegramBot.text := Some txt |}.

Definition photo : TelegramBot.Message :=
  {| TelegramBot.message_id := 2; TelegramBot.chat_id := 42;
     TelegramBot.text := None |}.

Definition start : CommandHandler.t :=
  {| CommandHandler.command := "start";
     CommandHandler.description := "Start the bot";
     CommandHandler.handler := 0 |}.

Definition start_again : CommandHandler.t :=
  {| CommandHandler.command := "start";
     CommandHandler.description := "Start once more";
     CommandHandler.handler := 1 |}.

Definition help : CommandHandler.t :=
  {| CommandHandler.command := "help";
     CommandHandler.description := "Show help";
     CommandHandler.handler := 2 |}.

Definition add : CommandHandler.t :=
  {| CommandHandler.command := "add";
     CommandHandler.description := "Add";
     CommandHandler.handler := 3 |}.

Definition addword : CommandHandler.t :=
  {| CommandHandler.command := "addword";
     CommandHandler.description := "Add a word";
     CommandHandler.handler := 4 |}.

Definition dotted : CommandHandler.t :=
  {| CommandHandler.command := "a.c";
     CommandHandler.description := "Dotted";
     CommandHandler.handler := 5 |}.

Definition onHello : MessageHandler.t :=
  {| MessageHandler.trigger := MessageHandler.Str "hello";
     MessageHandler.handler := 10 |}.


(** The pattern [/now/]. *)
Definition onNow : MessageHandler.t :=
  {| MessageHandler.trigger :=
       MessageHandler.Re (mkRegExp [[Lit "n"; Lit "o"; Lit "w"]]);
     MessageHandler.handler := 12 |}.

(** [new TelegramBotService(token)]. *)
Definition service : TelegramBotService.t := new "token" defaultOptions.

(** [new TelegramBotService(token, { polling: true, onlyFirstMatch: true })]. *)
Definition serviceFirstMatch : TelegramBotService.t :=
  new "token"
    {| TelegramBot.polling := true; TelegramBot.onlyFirstMatch := true |}.

End Sample.

(** ** lib/GoogleApiService: class [GoogleApiService]

    The remote services are reached through one instance per service, made
    by [google.sheets], [google.drive], [google.gmail] and
    [google.calendar]; what such a call answers is a parameter.  Text
    outside the range U+0000..U+00FF is carried as its UTF-8 bytes: it is
    only passed along. *)

Module GoogleApiService.

Inductive GoogleApiServices : Type := sheets | drive | gmail | calendar.

#[global] Instance GoogleApiServices_eq_dec : EqDecision GoogleApiServices.
Proof. solve_decision. Defined.

#[global] Instance GoogleApiServices_countable : Countable GoogleApiServices.
Proof.
  refine (inj_countable'
            (fun s => match s with
                      | sheets => 0 | drive => 1 | gmail => 2 | calendar => 3
                      end)
            (fun n => match n with
                      | 0 => sheets | 1 => drive | 2 => gmail | _ => calendar
                      end) _).
  by intros [].
Defined.

Inductive ValueInputOption : Type := RAW | USER_ENTERED.

Inductive ValueRenderOption : Type :=
  FORMATTED_VALUE | UNFORMATTED_VALUE | FORMULA.

(** The client [auth.getClient()] resolves to, named by an identifier. *)
Definition JWT : Type := nat.

(** A service instance: [google.sheets({ version, auth })] and the like. *)
Record Instance : Type := mkInstance {
  api : GoogleApiServices;
  version : string;
  auth : JWT
}.

Record t : Type := mk {
  keyFile : string;
  scopes : list string;
  client : option JWT;                          (* [client!: JWT] *)
  services : gmap GoogleApiServices Instance
}.

Definition defaultScopes : list string :=
  ["https://www.googleapis.com/auth/spreadsheets";
   "https://www.googleapis.com/auth/drive";
   "https://www.googleapis.com/auth/gmail.readonly";
   "https://www.googleapis.com/auth/calendar"].

Definition new (keyFilePath : string) (scopes : list string) : t :=
  {| keyFile := keyFilePath; scopes := scopes;
     client := None; services := ∅ |}.

Inductive error : Type :=
| Error (message : string)        (* [new Error(message)] *)
| Rejection (reason : string).    (* what a remote call or the
                                     authentication rejects with *)

Inductive result (A : Type) : Type :=
| Ok (a : A)
| Throw (e : error).
Arguments Ok {A} a.
Arguments Throw {A} e.

Inductive entry : Type :=
| ConsoleLog (message : string)
| ConsoleError (message : string) (e : error).

Module SheetReadOptions.
Record t : Type := mk {
  spreadsheetId : string;
  range : string;
  valueRenderOption : option ValueRenderOption
}.
End SheetReadOptions.

Module SheetDeleteOptions.
Record t : Type := mk {
  spreadsheetId : string;
  range : string
}.
End SheetDeleteOptions.

Module DriveFileOptions.
Record t : Type := mk {
  name : string;
  mimeType : option string;
  parents : option (list string);
  fields : option string
}.
End DriveFileOptions.

Section Service.

(** [cell] is the type of the cells of a sheet and [key] turns a cell into
    the property name it stands for as a header; [data] is the type of the
    payloads of the remote answers and [values] reads [data.values]. *)
Context {cell data : Type}.
Context (key : cell -> string).
Context (values : data -> option (list (list cell))).

(** [SheetAppendOptions] and [SheetUpdateOptions] have the same fields. *)
Record SheetWriteOptions : Type := mkSheetWriteOptions {
  w_spreadsheetId : string;
  w_range : string;
  w_valueInputOption : option ValueInputOption;
  w_values : list (list cell)
}.

Record SheetBatchUpdateOptions : Type := mkSheetBatchUpdateOptions {
  b_spreadsheetId : string;
  b_ranges : list string;
  b_valueInputOption : option ValueInputOption;
  b_data : list (list (list cell))
}.

(** The calls made on the remote services, with their parameters. *)
Inductive request : Type :=
| SpreadsheetsGet (spreadsheetId : string)
| ValuesGet (spreadsheetId range : string)
            (valueRenderOption : ValueRenderOption)
| ValuesAppend (spreadsheetId range : string)
               (valueInputOption : ValueInputOption)
               (vals : list (list cell))
| ValuesUpdate (spreadsheetId range : string)
               (valueInputOption : ValueInputOption)
               (vals : list (list cell))
| ValuesClear (spreadsheetId range : string)
| ValuesBatchUpdate (spreadsheetId : string)
                    (valueInputOption : ValueInputOption)
                    (data : list (string * option (list (list cell))))
| SpreadsheetsCreate (title : string) (sheetTitles : list string)
| FilesList (q : option string) (pageSize : Z) (pageToken : option string)
            (fields : string)
| FilesCreate (requestBody : DriveFileOptions.t)
              (media : option (string * string)) (fields : string)
| MessagesList (userId : string) (q : option string) (maxResults : Z)
| MessagesGet (userId id : string).


(** The console and the calls made so far, oldest first. *)
Record World : Type := mkWorld {
  console : list entry;
  requests : list (Instance * request)
}.

(** What the remote side answers to a call, given the calls before it. *)
Context (respond : list (Instance * request) -> Instance -> request
                   -> data + error).

(** Computations on the service and the world that return or throw. *)
Definition M (A : Type) : Type := t * World -> (t * World) * result A.

Definition ret {A : Type} (a : A) : M A := fun sw => (sw, Ok a).

Definition throw {A : Type} (e : error) : M A := fun sw => (sw, Throw e).

Definition bind {A B : Type} (m : M A) (k : A -> M B) : M B :=
  fun sw =>
    match m sw with
    | (sw', Ok a) => k a sw'
    | (sw', Throw e) => (sw', Throw e)
    end.

(** [try { m } catch (error) { h error }]. *)
Definition try_catch {A : Type} (m : M A) (h : error -> M A) : M A :=
  fun sw =>
    match m sw with
    | (sw', Ok a) => (sw', Ok a)
    | (sw', Throw e) => h e sw'
    end.

Notation "'let*' x ':=' m 'in' k" := (bind m (fun x => k))
  (at level 10, x name, m at level 100, k at level 200, only parsing).

Definition console_log (message : string) : M unit :=
  fun '(s, w) =>
    ((s, {| console := (console w ++ [ConsoleLog message])%list;
            requests := requests w |}), Ok tt).

Definition console_error (message : string) (e : error) : M unit :=
  fun '(s, w) =>
    ((s, {| console := (console w ++ [ConsoleError message e])%list;
            requests := requests w |}), Ok tt).

(** A call on the instance [i]: it is recorded, and returns the payload of
    the answer or throws what the remote side rejects with. *)
Definition send (i : Instance) (req : request) : M data :=
  fun '(s, w) =>
    let w' := {| console := console w;
                 requests := (requests w ++ [(i, req)])%list |} in
    match respond (requests w) i req with
    | inl d => ((s, w'), Ok d)
    | inr e => ((s, w'), Throw e)
    end.

(** [initialize]; [getClient] is what [this.auth.getClient()] settles to. *)
Definition initialize (getClient : JWT + error) : M unit :=
  try_catch
    (fun '(s, w) =>
       match getClient with
       | inl c =>
           console_log "Google API client được khởi tạo thành công"
             ({| keyFile := keyFile s; scopes := scopes s;
                 client := Some c; services := services s |}, w)
       | inr e => ((s, w), Throw e)
       end)
    (fun error =>
       let* _ := console_error "Lỗi khi khởi tạo Google API client:" error in
       throw (Error "Không thể xác thực với Google API")).

Definition create (service : GoogleApiServices) (c : JWT) : Instance :=
  match service with
  | sheets => {| api := sheets; version := "v4"; auth := c |}
  | drive => {| api := drive; version := "v3"; auth := c |}
  | gmail => {| api := gmail; version := "v1"; auth := c |}
  | calendar => {| api := calendar; version := "v3"; auth := c |}
  end.

(** The error of [getService] when there is no client. *)
Definition notInitialized : error :=
  Error "Client chưa được khởi tạo. Hãy gọi initialize() trước.".

Definition getService (service : GoogleApiServices) : M Instance :=
  fun '(s, w) =>
    match client s with
    | None => ((s, w), Throw notInitialized)
    | Some c =>
        match services s !! service with
        | Some i => ((s, w), Ok i)
        | None =>
            let serviceInstance := create service c in
            (({| keyFile := keyFile s; scopes := scopes s; client := client s;
                 services := <[service := serviceInstance]> (services s) |},
              w),
             Ok serviceInstance)
        end
    end.

Definition getSheetMetadata (spreadsheetId : string) : M data :=
  try_catch
    (let* sheets := getService sheets in
     let* response := send sheets (SpreadsheetsGet spreadsheetId) in
     ret response)
    (fun error =>
       let* _ := console_error "Lỗi khi lấy metadata của spreadsheet:" error in
       throw error).

Definition readSheetData (options : SheetReadOptions.t)
  : M (list (list cell)) :=
  try_catch
    (let* sheets := getService sheets in
     let* response :=
       send sheets
         (ValuesGet (SheetReadOptions.spreadsheetId options)
                    (SheetReadOptions.range options)
                    (default FORMATTED_VALUE
                       (SheetReadOptions.valueRenderOption options))) in
     ret (default [] (values response)))
    (fun error =>
       let* _ := console_error "Lỗi khi đọc dữ liệu từ spreadsheet:" error in
       throw error).

(** [obj[name] = v] on an object made by [{}]: the name [__proto__] is
    the accessor of [Object.prototype] and gives no property of the
    object's own. *)
Definition assign (name : string) (v : option cell)
           (obj : gmap string (option cell)) : gmap string (option cell) :=
  if String.eqb name "__proto__" then obj else <[name := v]> obj.

(** [headers.forEach((header, index) => ...)] from [index] on; in the
    object [None] is [null]. *)
Fixpoint forEach_header (headers : list cell) (index : nat) (row : list cell)
         (obj : gmap string (option cell)) : gmap string (option cell) :=
  match headers with
  | [] => obj
  | header :: headers' =>
      forEach_header headers' (S index) row
        (assign (key header) (row !! index) obj)
  end.

(** The callback of [rows.map]. *)
Definition rowObject (headers row : list cell) : gmap string (option cell) :=
  forEach_header headers 0 row ∅.

(** What [readSheetDataAsObjects] makes of the rows it has read. *)
Definition rowsToObjects (data : list (list cell))
  : list (gmap string (option cell)) :=
  if (length data <? 2)%nat then []
  else
    match data with
    | headers :: rows => rowObject headers <$> rows
    | [] => []
    end.

Definition readSheetDataAsObjects (options : SheetReadOptions.t)
  : M (list (gmap string (option cell))) :=
  try_catch
    (let* data := readSheetData options in
     ret (rowsToObjects data))
    (fun error =>
       let* _ :=
         console_error "Lỗi khi đọc dữ liệu dạng đối tượng từ spreadsheet:"
                       error in
       throw error).

Definition appendSheetData (options : SheetWriteOptions) : M data :=
  try_catch
    (let* sheets := getService sheets in
     let* response :=
       send sheets
         (ValuesAppend (w_spreadsheetId options) (w_range options)
                       (default USER_ENTERED (w_valueInputOption options))
                       (w_values options)) in
     ret response)
    (fun error =>
       let* _ := console_error "Lỗi khi thêm dữ liệu vào spreadsheet:" error in
       throw error).

Definition updateSheetData (options : SheetWriteOptions) : M data :=
  try_catch
    (let* sheets := getService sheets in
     let* response :=
       send sheets
         (ValuesUpdate (w_spreadsheetId options) (w_range options)
                       (default USER_ENTERED (w_valueInputOption options))
                       (w_values options)) in
     ret response)
    (fun error =>
       let* _ :=
         console_error "Lỗi khi cập nhật dữ liệu trong spreadsheet:" error in
       throw error).

Definition clearSheetData (options : SheetDeleteOptions.t) : M data :=
  try_catch
    (let* sheets := getService sheets in
     let* response :=
       send sheets
         (ValuesClear (SheetDeleteOptions.spreadsheetId options)
                      (SheetDeleteOptions.range options)) in
     ret response)
    (fun error =>
       let* _ := console_error "Lỗi khi xóa dữ liệu trong spreadsheet:" error in
       throw error).

(** [options.ranges.map((range, index) => ({ range, values: options.data[index] }))];
    [None] is [undefined]. *)
Definition batchData (ranges : list string) (data : list (list (list cell)))
  : list (string * option (list (list cell))) :=
  imap (fun index range => (range, data !! index)) ranges.

Definition batchUpdateSheetData (options : SheetBatchUpdateOptions) : M data :=
  try_catch
    (let* sheets := getService sheets in
     let data := batchData (b_ranges options) (b_data options) in
     let* response :=
       send sheets
         (ValuesBatchUpdate (b_spreadsheetId options)
                            (default USER_ENTERED (b_valueInputOption options))
                            data) in
     ret response)
    (fun error =>
       let* _ := console_error "Lỗi khi cập nhật hàng loạt dữ liệu:" error in
       throw error).

(** [sheets] absent is [None]; an array, even an empty one, is truthy. *)
Definition sheetObjects (sheets : option (list string)) : list string :=
  match sheets with
  | Some titles => titles
  | None => ["Sheet1"]
  end.

Definition createSpreadsheet (title : string) (sheets : option (list string))
  : M data :=
  try_catch
    (let* sheetsService := getService GoogleApiService.sheets in
     let sheetObjects := sheetObjects sheets in
     let* response :=
       send sheetsService (SpreadsheetsCreate title sheetObjects) in
     ret response)
    (fun error =>
       let* _ := console_error "Lỗi khi tạo spreadsheet mới:" error in
       throw error).

(** [pageSize] absent is [None] and takes the default of the parameter. *)
Definition listDriveFiles (query : option string) (pageSize : option Z)
           (pageToken : option string) : M data :=
  let pageSize := default 100%Z pageSize in
  try_catch
    (let* drive := getService drive in
     let* response :=
       send drive
         (FilesList query pageSize pageToken
            "nextPageToken, files(id, name, mimeType, createdTime, modifiedTime, webViewLink)") in
     ret response)
    (fun error =>
       let* _ := console_error "Lỗi khi liệt kê files từ Drive:" error in
       throw error).

(** [if (parentFolderId) fileMetadata.parents = [parentFolderId]]. *)
Definition withParent (parentFolderId : option string)
           (fileMetadata : DriveFileOptions.t) : DriveFileOptions.t :=
  if truthy parentFolderId
  then {| DriveFileOptions.name := DriveFileOptions.name fileMetadata;
          DriveFileOptions.mimeType := DriveFileOptions.mimeType fileMetadata;
          DriveFileOptions.parents := Some [or_else parentFolderId ""];
          DriveFileOptions.fields := DriveFileOptions.fields fileMetadata |}
  else fileMetadata.

Definition createDriveFolder (folderName : string)
           (parentFolderId : option string) : M data :=
  try_catch
    (let* drive := getService drive in
     let fileMetadata :=
       {| DriveFileOptions.name := folderName;
          DriveFileOptions.mimeType := Some "application/vnd.google-apps.folder";
          DriveFileOptions.parents := None;
          DriveFileOptions.fields := None |} in
     let fileMetadata := withParent parentFolderId fileMetadata in
     let* response :=
       send drive (FilesCreate fileMetadata None "id, name, webViewLink") in
     ret response)
    (fun error =>
       let* _ := console_error "Lỗi khi tạo folder mới trên Drive:" error in
       throw error).

Definition uploadFileToDrive (fileContent fileName mimeType : string)
           (parentFolderId : option string) : M data :=
  try_catch
    (let* drive := getService drive in
     let fileMetadata :=
       {| DriveFileOptions.name := fileName;
          DriveFileOptions.mimeType := None;
          DriveFileOptions.parents := None;
          DriveFileOptions.fields := None |} in
     let fileMetadata := withParent parentFolderId fileMetadata in
     let media := (mimeType, fileContent) in
     let* response :=
       send drive
         (FilesCreate fileMetadata (Some media) "id, name, webViewLink") in
     ret response)
    (fun error =>
       let* _ := console_error "Lỗi khi tải file lên Drive:" error in
       throw error).

Definition listGmailMessages (query : option string) (maxResults : option Z)
  : M data :=
  let maxResults := default 10%Z maxResults in
  try_catch
    (let* gmail := getService gmail in
     let* response := send gmail (MessagesList "me" query maxResults) in
     ret response)
    (fun error =>
       let* _ :=
         console_error "Lỗi khi lấy danh sách tin nhắn từ Gmail:" error in
       throw error).

Definition getGmailMessage (messageId : string) : M data :=
  try_catch
    (let* gmail := getService gmail in
     let* response := send gmail (MessagesGet "me" messageId) in
     ret response)
    (fun error =>
       let* _ :=
         console_error "Lỗi khi lấy thông tin chi tiết tin nhắn Gmail:" error in
       throw error).

(** The operations a client of the service can ask for, and what each
    returns. *)
Inductive operation : Type :=
| Initialize (getClient : JWT + error)
| GetService (service : GoogleApiServices)
| GetSheetMetadata (spreadsheetId : string)
| ReadSheetData (options : SheetReadOptions.t)
| ReadSheetDataAsObjects (options : SheetReadOptions.t)
| AppendSheetData (options : SheetWriteOptions)
| UpdateSheetData (options : SheetWriteOptions)
| ClearSheetData (options : SheetDeleteOptions.t)
| BatchUpdateSheetData (options : SheetBatchUpdateOptions)
| CreateSpreadsheet (title : string) (sheets : option (list string))
| ListDriveFiles (query : option string) (pageSize : option Z)
                 (pageToken : option string)
| CreateDriveFolder (folderName : string) (parentFolderId : option string)
| UploadFileToDrive (fileContent fileName mimeType : string)
                    (parentFolderId : option string)
| ListGmailMessages (query : option string) (maxResults : option Z)
| GetGmailMessage (messageId : string).

Inductive output : Type :=
| Done
| TheInstance (i : Instance)
| Payload (d : data)
| Rows (rows : list (list cell))
| Objects (objs : list (gmap string (option cell))).

Definition returning {A : Type} (f : A -> output) (m : M A) : M output :=
  let* a := m in ret (f a).

Definition perform (op : operation) : M output :=
  match op with
  | Initialize getClient => returning (fun _ => Done) (initialize getClient)
  | GetService service => returning TheInstance (getService service)
  | GetSheetMetadata spreadsheetId =>
      returning Payload (getSheetMetadata spreadsheetId)
  | ReadSheetData options => returning Rows (readSheetData options)
  | ReadSheetDataAsObjects options =>
      returning Objects (readSheetDataAsObjects options)
  | AppendSheetData options => returning Payload (appendSheetData options)
  | UpdateSheetData options => returning Payload (updateSheetData options)
  | ClearSheetData options => returning Payload (clearSheetData options)
  | BatchUpdateSheetData options =>
      returning Payload (batchUpdateSheetData options)
  | CreateSpreadsheet title sheets' =>
      returning Payload (createSpreadsheet title sheets')
  | ListDriveFiles query pageSize pageToken =>
      returning Payload (listDriveFiles query pageSize pageToken)
  | CreateDriveFolder folderName parentFolderId =>
      returning Payload (createDriveFolder folderName parentFolderId)
  | UploadFileToDrive fileContent fileName mimeType parentFolderId =>
      returning Payload
        (uploadFileToDrive fileContent fileName mimeType parentFolderId)
  | ListGmailMessages query maxResults =>
      returning Payload (listGmailMessages query maxResults)
  | GetGmailMessage messageId => returning Payload (getGmailMessage messageId)
  end.


End Service.

End GoogleApiService.

(** ** src/lib/TelegramBotService.ts, continued: callback queries and
    the calls that go out through the client *)

Module TelegramBotCalls.

Record CallbackQuery : Type := mkCallbackQuery {
  id : string;
  data : option string              (* [data?: string] *)
}.

(** [chatId: number | string] *)
Definition ChatId : Type := (Z + string)%type.

(** The calls on the client that the service forwards; [options] is the
    options object, left opaque, when one is passed. *)
Inductive sent : Type :=
| AnswerCallbackQuery (id : string)
| SendMessage (chatId : ChatId) (text : string) (options : option string).

Definition handleCallbackQuery (query : CallbackQuery) : list sent :=
  if truthy (data query)
  then [AnswerCallbackQuery (id query)]
  else [].                                     (* if (!query.data) return *)

Definition sendMessage (chatId : ChatId) (text : string)
           (options : option string) : list sent :=
  [SendMessage chatId text options].

(** The listener of line 43 calls [handleCallbackQuery]. *)
Definition runQueryListener (l : listener) (query : CallbackQuery)
  : list sent :=
  match l with
  | CallbackQueryListener => handleCallbackQuery query
  | PollingErrorListener | MessageListener => []
  end.

(** The client emits the event ["callback_query"] for an update that
    carries a callback query. *)
Definition deliverCallbackQuery (s : TelegramBotService.t)
           (query : CallbackQuery) : list sent :=
  TelegramBot.emit "callback_query" (bot s)
    ≫= fun l => runQueryListener l query.

End TelegramBotCalls.

(** ** The application: class [Main]

    The handlers registered by [bootstrap] are named 0 to 4 in the order
    of their registration. *)

Module Main.

Definition LF : string := String (ascii_of_nat 10) "".

Record t : Type := mk {
  googleApi : GoogleApiService.t;
  bot : TelegramBotService.t;
  logger : Logger.t
}.

(** The constructor, with the defaults of its parameters; [cfg] is
    [envConfig], [join] is [path.join] and [dirname] is [__dirname]. *)
Definition new (cfg : EnvConfig.t) (join : string -> string -> string)
           (dirname : string) : t :=
  {| googleApi :=
       GoogleApiService.new (EnvConfig.googleKeyFilePath cfg)
                            GoogleApiService.defaultScopes;
     bot := TelegramBotService.new (EnvConfig.telegramToken cfg) defaultOptions;
     logger := Logger.new join dirname "" "app.log" |}.

Definition start : CommandHandler.t :=
  {| CommandHandler.command := "start";
     CommandHandler.description := "Bắt đầu bot";
     CommandHandler.handler := 0 |}.

Definition help : CommandHandler.t :=
  {| CommandHandler.command := "help";
     CommandHandler.description := "Hiển thị trợ giúp";
     CommandHandler.handler := 1 |}.

Definition about : CommandHandler.t :=
  {| CommandHandler.command := "about";
     CommandHandler.description := "Về tôi";
     CommandHandler.handler := 2 |}.

Definition sheetlink : CommandHandler.t :=
  {| CommandHandler.command := "sheetlink";
     CommandHandler.description := "Liên kết Google Sheet";
     CommandHandler.handler := 3 |}.

Definition addenglishword : CommandHandler.t :=
  {| CommandHandler.command := "addenglishword";
     CommandHandler.description := "Thêm từ mới (tiếng Anh)";
     CommandHandler.handler := 4 |}.

Definition botRegisterCommonCommand (this : t) (bot : TelegramBotService.t)
           (w : Logger.World) : TelegramBotService.t * Logger.World :=
  let bot := state_of (registerCommand start bot) in
  let bot := state_of (registerCommand help bot) in
  let bot := state_of (registerCommand about bot) in
  (bot, Logger.info (logger this) "[ CHUNG ] - Đăng ký lệnh thành công!" w).

Definition botLearningZoneCommand (this : t) (bot : TelegramBotService.t)
           (w : Logger.World) : TelegramBotService.t * Logger.World :=
  let bot := state_of (registerCommand sheetlink bot) in
  let bot := state_of (registerCommand addenglishword bot) in
  (bot, Logger.info (logger this) "[ HỌC TẬP ] - Đăng ký lệnh thành công!!" w).

(** [bootstrap].  The call [this.googleApi.initialize()] is started and not
    awaited: it has no effect before [bootstrap] returns. *)
Definition bootstrap (this : t) (w : Logger.World) : t * Logger.World :=
  let w := Logger.info (logger this) "Server is running !" w in
  let '(bot1, w) := botRegisterCommonCommand this (bot this) w in
  let '(bot2, w) := botLearningZoneCommand this bot1 w in
  ({| googleApi := googleApi this; bot := bot2; logger := logger this |}, w).

Definition startText : string :=
  "Xin chào! Tôi là Quicklang Bot. Gõ /help để xem danh sách lệnh.".

Definition helpText : string :=
  "🤖 Danh sách lệnh" ++ LF
  ++ "/start - Bắt đầu bot" ++ LF
  ++ "/about - Về tôi" ++ LF
  ++ "/help - Hiển thị trợ giúp" ++ LF ++ LF
  ++ "📚 Khu vực học tập" ++ LF
  ++ "/sheetlink - Liên kết Google Sheet" ++ LF
  ++ "/addenglishword - Thêm từ mới (tiếng Anh)" ++ LF.

Definition aboutText : string :=
  "Xin chào, tôi là Dương 👋 " ++ LF
  ++ "👉 Lập trình viên với kinh nghiệm chuyên về Website, Ứng dụng di động, . . . "
  ++ LF ++ LF
  ++ "Liên hệ:" ++ LF
  ++ "👨‍🔧 Webiste: https://yangis.dev" ++ LF
  ++ "🧑‍💻 Github: https://github.com/duongcao04" ++ LF
  ++ "✉️ Gmail: caohaiduong04@gmail.com" ++ LF
  ++ "📖 Facebook: https://facebook.com/duongcaodev" ++ LF.

Section Handlers.

Context {cell data : Type}.
Context (respond : list (GoogleApiService.Instance
                         * GoogleApiService.request (cell := cell))
                   -> GoogleApiService.Instance
                   -> GoogleApiService.request (cell := cell)
                   -> data + GoogleApiService.error).
(** How [console.log] prints [data.sheets]. *)
Context (showSheets : data -> string).

Abbreviation G := (@GoogleApiService.M cell).

Definition chat (msg : TelegramBot.Message) : TelegramBotCalls.ChatId :=
  inl (TelegramBot.chat_id msg).

(** The body of the handler named [cb], run on the message it is called
    with; [cfg] is [envConfig].  A handler that throws sends nothing. *)
Definition handlerBody (cfg : EnvConfig.t) (cb : callback)
           (msg : TelegramBot.Message) : G (list TelegramBotCalls.sent) :=
  match cb with
  | 0 =>
      GoogleApiService.ret
        (TelegramBotCalls.sendMessage (chat msg) startText None)
  | 1 =>
      GoogleApiService.ret
        (TelegramBotCalls.sendMessage (chat msg) helpText None)
  | 2 =>
      GoogleApiService.ret
        (TelegramBotCalls.sendMessage (chat msg) aboutText None)
  | 3 =>
      GoogleApiService.bind
        (GoogleApiService.getSheetMetadata respond (EnvConfig.spreadsheetId cfg))
        (fun sheet =>
           GoogleApiService.bind
             (GoogleApiService.console_log (showSheets sheet))
             (fun _ =>
                let helpText :=
                  "Google Sheet Link: "
                  ++ "https://docs.google.com/spreadsheets/d/"
                  ++ EnvConfig.spreadsheetId cfg in
                GoogleApiService.ret
                  (TelegramBotCalls.sendMessage (chat msg) helpText None)))
  | 4 =>
      GoogleApiService.bind
        (GoogleApiService.getSheetMetadata respond (EnvConfig.spreadsheetId cfg))
        (fun sheet =>
           GoogleApiService.bind
             (GoogleApiService.console_log (showSheets sheet))
             (fun _ =>
                let helpText := "Get" in
                GoogleApiService.ret
                  (TelegramBotCalls.sendMessage (chat msg) helpText None)))
  | _ => GoogleApiService.ret []
  end.

(** What the handler calls of a trace send, one handler after the other;
    the handlers of [bootstrap] are all command handlers. *)
Fixpoint runHandlers (cfg : EnvConfig.t) (tr : list event)
         (sw : GoogleApiService.t * GoogleApiService.World (cell := cell))
  : (GoogleApiService.t * GoogleApiService.World (cell := cell))
    * list TelegramBotCalls.sent :=
  match tr with
  | [] => (sw, [])
  | CommandHandlerCalled cb msg :: tr' =>
      let '(sw1, r) := handlerBody cfg cb msg sw in
      let '(sw2, rest) := runHandlers cfg tr' sw1 in
      (sw2,
       (match r with
        | GoogleApiService.Ok out => out
        | GoogleApiService.Throw _ => []
        end ++ rest)%list)
  | _ :: tr' => runHandlers cfg tr' sw
  end.

(** One inbound message, from delivery to the calls sent out; [sw] holds
    the state of [this.googleApi] when the message comes in. *)
Definition receive (cfg : EnvConfig.t) (this : t) (msg : TelegramBot.Message)
           (sw : GoogleApiService.t * GoogleApiService.World (cell := cell))
  : (GoogleApiService.t * GoogleApiService.World (cell := cell))
    * list TelegramBotCalls.sent :=
  runHandlers cfg (deliver (bot this) msg) sw.

End Handlers.

End Main.

(** ** Helpers for the statements *)

(** No name of the list begins another name of the list. *)
Fixpoint prefixFree (names : list string) : bool :=
  match names with
  | [] => true
  | n :: rest =>
      forallb (fun m => negb (startsWith m n) && negb (startsWith n m)) rest
      && prefixFree rest
  end.

(** A sequence of [log] calls, each at the time the clock shows then. *)
Definition logAll (this : Logger.t)
           (entries : list (string * Logger.LogLevel * string))
           (w : Logger.World) : Logger.World :=
  foldl (fun w '(timestamp, level, message) =>
           Logger.log this level message
             {| Logger.now := timestamp; Logger.files := Logger.files w;
                Logger.appendError := Logger.appendError w;
                Logger.console := Logger.console w |})
        w entries.

(** The line [log] appends for one entry. *)
Definition lineOf (this : Logger.t)
           (entry : string * Logger.LogLevel * string) : string :=
  Logger.logMessage this (fst (fst entry)) (snd entry) ++ Logger.LF.


(** A message sent back to the chat [msg] came from, without options. *)
Definition toSender (msg : TelegramBot.Message) (r : TelegramBotCalls.sent)
  : Prop :=
  exists text,
    r = TelegramBotCalls.SendMessage (inl (TelegramBot.chat_id msg)) text None.

(** ** A sample sheet and remote side *)

Module SampleRemote.

(** The answer the remote side gives to every call. *)
Definition sheet : list (list string) :=
  [["en"; "vi"; "note"]; ["cat"; "meo"]; ["dog"; "cho"; "pet"; "extra"]].

Definition values (d : list (list string)) : option (list (list string)) :=
  Some d.

Definition accept
           (history : list (GoogleApiService.Instance
                            * GoogleApiService.request (cell := string)))
           (i : GoogleApiService.Instance)
           (req : GoogleApiService.request (cell := string))
  : list (list string) + GoogleApiService.error :=
  inl sheet.

Definition reject
           (history : list (GoogleApiService.Instance
                            * GoogleApiService.request (cell := string)))
           (i : GoogleApiService.Instance)
           (req : GoogleApiService.request (cell := string))
  : list (list string) + GoogleApiService.error :=
  inr (GoogleApiService.Rejection "quota exceeded").

Definition readOptions : GoogleApiService.SheetReadOptions.t :=
  {| GoogleApiService.SheetReadOptions.spreadsheetId := "sheet-1";
     GoogleApiService.SheetReadOptions.range := "A1:D3";
     GoogleApiService.SheetReadOptions.valueRenderOption := None |}.

Definition fresh : GoogleApiService.t * GoogleApiService.World (cell := string) :=
  (GoogleApiService.new "key.json" GoogleApiService.defaultScopes,
   GoogleApiService.mkWorld [] []).

(** The object once [initialize] has succeeded with the client 7. *)
Definition ready : GoogleApiService.t :=
  GoogleApiService.mk "key.json" GoogleApiService.defaultScopes (Some 7) ∅.

Definition showSheets (d : list (list string)) : string := "[sheets]".

Definition cfg : EnvConfig.t :=
  EnvConfig.envConfig {["GOOGLE_SPREADSHEET_ID" := "sheet-1"]}.

Definition join (a b : string) : string := a ++ "/" ++ b.

Definition logWorld : Logger.World :=
  Logger.mkWorld "2024-05-01T10:00:00.000Z" ∅ (fun _ => None) [].

(** The application after [bootstrap]. *)
Definition app : Main.t :=
  fst (Main.bootstrap (Main.new cfg join "/srv") logWorld).

End SampleRemote.

(** * Properties *)

Local Open Scope list_scope.

(** ** Strings *)

Section Strings.

Lemma append_String (a : ascii) (s t : string) :
  String a s +:+ t = String a (s +:+ t).
Proof. reflexivity. Qed.

Lemma append_empty_l (t : string) : "" +:+ t = t.
Proof. reflexivity. Qed.


Lemma append_assoc (s t u : string) : (s +:+ t) +:+ u = s +:+ (t +:+ u).
Proof.
  induction s as [|a s IH]; [done|].
  by rewrite !append_String, IH.
Qed.









End Strings.

(** ** The registry *)

Section Registry.

Implicit Types (s : TelegramBotService.t) (cs : list call).

Lemma registerCommand_commands command s :
  commands (state_of (registerCommand command s)) = commands s ++ [command].
Proof. unfold registerCommand. by destruct (RegExp_new _). Qed.

Lemma registerCommand_messageHandlers command s :
  messageHandlers (state_of (registerCommand command s)) = messageHandlers s.
Proof. unfold registerCommand. by destruct (RegExp_new _). Qed.

Lemma registerCommand_textRegexpCallbacks command s :
  TelegramBot.textRegexpCallbacks (bot (state_of (registerCommand command s)))
  = TelegramBot.textRegexpCallbacks (bot s)
    ++ match RegExp_new ("^/" +:+ CommandHandler.command command) with
       | Some re => [(re, CommandHandler.handler command)]
       | None => []
       end.
Proof.
  unfold registerCommand. destruct (RegExp_new _); simpl; [done|].
  by rewrite app_nil_r.
Qed.

Lemma step_commands s c :
  commands (step s c) = commands s ++ registeredCommands [c].
Proof.
  destruct c; simpl; rewrite ?app_nil_r; auto using registerCommand_commands.
Qed.

Lemma step_messageHandlers s c :
  messageHandlers (step s c)
  = messageHandlers s ++ registeredMessageHandlers [c].
Proof.
  destruct c; simpl; rewrite ?app_nil_r;
    auto using registerCommand_messageHandlers.
Qed.

Lemma run_snoc cs c s : run (cs ++ [c]) s = step (run cs s) c.
Proof. unfold run. by rewrite foldl_app. Qed.

Lemma registeredCommands_app cs1 cs2 :
  registeredCommands (cs1 ++ cs2)
  = registeredCommands cs1 ++ registeredCommands cs2.
Proof. apply omap_app. Qed.

Lemma registeredMessageHandlers_app cs1 cs2 :
  registeredMessageHandlers (cs1 ++ cs2)
  = registeredMessageHandlers cs1 ++ registeredMessageHandlers cs2.
Proof. apply omap_app. Qed.

Lemma run_commands cs s :
  commands (run cs s) = commands s ++ registeredCommands cs.
Proof.
  induction cs as [|c cs IH] using rev_ind.
  - by rewrite app_nil_r.
  - rewrite run_snoc, step_commands, IH, registeredCommands_app.
    by rewrite app_assoc.
Qed.

Lemma run_messageHandlers cs s :
  messageHandlers (run cs s)
  = messageHandlers s ++ registeredMessageHandlers cs.
Proof.
  induction cs as [|c cs IH] using rev_ind.
  - by rewrite app_nil_r.
  - rewrite run_snoc, step_messageHandlers, IH,
      registeredMessageHandlers_app.
    by rewrite app_assoc.
Qed.

Lemma step_listeners s c :
  TelegramBot.listeners (bot (step s c)) = TelegramBot.listeners (bot s).
Proof.
  destruct c; simpl; try done.
  unfold registerCommand. by destruct (RegExp_new _).
Qed.

Lemma step_options s c :
  TelegramBot.options (bot (step s c)) = TelegramBot.options (bot s).
Proof.
  destruct c; simpl; try done.
  unfold registerCommand. by destruct (RegExp_new _).
Qed.

Lemma run_listeners cs s :
  TelegramBot.listeners (bot (run cs s)) = TelegramBot.listeners (bot s).
Proof.
  induction cs as [|c cs IH] using rev_ind; [done|].
  by rewrite run_snoc, step_listeners.
Qed.

Lemma run_options cs s :
  TelegramBot.options (bot (run cs s)) = TelegramBot.options (bot s).
Proof.
  induction cs as [|c cs IH] using rev_ind; [done|].
  by rewrite run_snoc, step_options.
Qed.

(** Every state the constructor and the public calls can reach has the
    one ["message"] listener of [initializeEventListeners]. *)
Lemma emit_message_run cs token options :
  TelegramBot.emit "message" (bot (run cs (new token options)))
  = [MessageListener].
Proof.
  unfold TelegramBot.emit. rewrite run_listeners. simpl.
  by vm_compute.
Qed.

Lemma deliver_run cs token options msg :
  let s := run cs (new token options) in
  deliver s msg = handleMessage s msg ++ commandCalls s msg.
Proof.
  intros s. unfold deliver, TelegramBot.processUpdate. subst s.
  rewrite emit_message_run. simpl. rewrite app_nil_r. f_equal.
Qed.

End Registry.

(** ** Registration *)

(** C8.  Registration is append-only: [registerCommand] puts exactly one
    entry at the end of [commands] and [registerMessageHandler] exactly one
    at the end of [messageHandlers]; either leaves the other sequence as it
    was, and whatever calls follow, the entries already present stay where
    they are, unchanged. *)
Theorem registration_append_only (s : TelegramBotService.t) (cs : list call) :
  (forall command,
      commands (state_of (registerCommand command s)) = commands s ++ [command]
      /\ messageHandlers (state_of (registerCommand command s))
         = messageHandlers s)
  /\ (forall handler,
      messageHandlers (registerMessageHandler handler s)
      = messageHandlers s ++ [handler]
      /\ commands (registerMessageHandler handler s) = commands s
      /\ bot (registerMessageHandler handler s) = bot s)
  /\ commands (run cs s) = commands s ++ registeredCommands cs
  /\ messageHandlers (run cs s)
     = messageHandlers s ++ registeredMessageHandlers cs.
Proof.
  repeat split.
  - apply registerCommand_commands.
  - apply registerCommand_messageHandlers.
  - apply run_commands.
  - apply run_messageHandlers.
Qed.


(** C4, as the code has it.  [registerCommand] neither rejects nor
    overwrites: the names of the live entries are the names that were
    passed, in order and with their repetitions, and registering a name
    again adds a second entry after the first. *)
Theorem registerCommand_keeps_every_name
        (token : string) (options : TelegramBot.ConstructorOptions)
        (cs : list call) (s : TelegramBotService.t)
        (command : CommandHandler.t) :
  CommandHandler.command <$> commands (run cs (new token options))
  = CommandHandler.command <$> registeredCommands cs
  /\ commands (state_of (registerCommand command
                           (state_of (registerCommand command s))))
     = commands s ++ [command; command].
Proof.
  split.
  - by rewrite run_commands.
  - rewrite !registerCommand_commands. by rewrite <- app_assoc.
Qed.

(** C4, refuted as stated.  Registering the name [start] twice leaves two
    live entries, and two live patterns, of that name. *)
Lemma duplicate_names_stay_live :
  commands (run [RegisterCommand Sample.start;
                 RegisterCommand Sample.start_again] Sample.service)
  = [Sample.start; Sample.start_again]
  /\ ~ NoDup (CommandHandler.command <$>
              commands (run [RegisterCommand Sample.start;
                             RegisterCommand Sample.start_again]
                            Sample.service))
  /\ calls (deliver (run [RegisterCommand Sample.start;
                          RegisterCommand Sample.start_again] Sample.service)
                    (Sample.message "/start"))
     = [CommandHandlerCalled 0 (Sample.message "/start");
        CommandHandlerCalled 1 (Sample.message "/start")].
Proof.
  split; [reflexivity|]. split; [|reflexivity].
  intros H. apply NoDup_cons in H as [H _]. apply H. by left.
Qed.

(** ** Routing *)

Section Routing.

Implicit Types (s : TelegramBotService.t) (cs : list call)
         (msg : TelegramBot.Message) (txt : string).

Lemma step_textRegexpCallbacks s c :
  TelegramBot.textRegexpCallbacks (bot (step s c))
  = TelegramBot.textRegexpCallbacks (bot s)
    ++ omap patternCallback (registeredCommands [c]).
Proof.
  destruct c as [command| |]; simpl; rewrite ?app_nil_r; try done.
  rewrite registerCommand_textRegexpCallbacks. unfold patternCallback.
  by destruct (RegExp_new _).
Qed.

(** The live patterns are those of the registered commands, in order. *)
Lemma run_textRegexpCallbacks cs token options :
  TelegramBot.textRegexpCallbacks (bot (run cs (new token options)))
  = omap patternCallback (registeredCommands cs).
Proof.
  induction cs as [|c cs IH] using rev_ind; [done|].
  rewrite run_snoc, step_textRegexpCallbacks, IH, registeredCommands_app.
  by rewrite omap_app.
Qed.

Lemma handleMessage_loop_skip (pre rest : list MessageHandler.t) msg txt :
  Forall (fun h => triggerMatches (MessageHandler.trigger h) txt = false) pre ->
  handleMessage_loop (pre ++ rest) msg txt
  = (Evaluated <$> pre) ++ handleMessage_loop rest msg txt.
Proof.
  induction 1 as [|h pre Hh _ IH]; simpl; [done|].
  by rewrite Hh, IH.
Qed.



Lemma handleMessage_loop_no_match (hs : list MessageHandler.t) msg txt :
  Forall (fun h => triggerMatches (MessageHandler.trigger h) txt = false) hs ->
  calls (handleMessage_loop hs msg txt) = [].
Proof.
  intros H. rewrite <- (app_nil_r hs), handleMessage_loop_skip by done.
  simpl. rewrite app_nil_r. unfold calls.
  induction hs as [|h hs IH]; [done|].
  rewrite fmap_cons, filter_cons_False by (simpl; auto).
  apply IH. by eapply Forall_inv_tail.
Qed.

(** The pattern callbacks run for a text: all whose pattern matches, in
    registration order, or the first of them under [onlyFirstMatch]. *)
Lemma matchText_all (regs : list (RegExp * callback)) txt :
  TelegramBot.matchText false regs txt
  = snd <$> filter (fun rc => RegExp_test (fst rc) txt = true) regs.
Proof.
  induction regs as [|[re cb] regs IH]; simpl; [done|].
  destruct (RegExp_test re txt) eqn:E.
  - rewrite filter_cons_True by done. simpl. by rewrite IH.
  - rewrite filter_cons_False by (simpl; congruence). done.
Qed.

Lemma matchText_first (regs : list (RegExp * callback)) txt :
  TelegramBot.matchText true regs txt
  = take 1 (snd <$> filter (fun rc => RegExp_test (fst rc) txt = true) regs).
Proof.
  induction regs as [|[re cb] regs IH]; simpl; [done|].
  destruct (RegExp_test re txt) eqn:E.
  - rewrite filter_cons_True by done. done.
  - rewrite filter_cons_False by (simpl; congruence). done.
Qed.

Lemma matchText_no_match only_first (regs : list (RegExp * callback)) txt :
  Forall (fun rc => RegExp_test (fst rc) txt = false) regs ->
  TelegramBot.matchText only_first regs txt = [].
Proof.
  induction 1 as [|[re cb] regs Hrc _ IH]; simpl; [done|].
  simpl in Hrc. by rewrite Hrc.
Qed.

Lemma patternCallback_no_match (cmds : list CommandHandler.t) txt :
  Forall (fun c => commandMatches c txt = Some false) cmds ->
  Forall (fun rc => RegExp_test (fst rc) txt = false)
         (omap patternCallback cmds).
Proof.
  induction 1 as [|c cmds Hc _ IH]; simpl; [constructor|].
  unfold patternCallback, commandMatches in *.
  destruct (RegExp_new _) as [re|]; simpl in *; [|done].
  constructor; [|done]. simpl. congruence.
Qed.

Lemma matching_patternCallbacks (cmds : list CommandHandler.t) txt :
  snd <$> filter (fun rc => RegExp_test (fst rc) txt = true)
                 (omap patternCallback cmds)
  = CommandHandler.handler <$>
      filter (fun cmd => commandMatches cmd txt = Some true) cmds.
Proof.
  induction cmds as [|cmd cmds IH]; [done|]. simpl.
  unfold patternCallback at 1.
  destruct (RegExp_new _) as [re|] eqn:E; simpl.
  - destruct (RegExp_test re txt) eqn:T.
    + rewrite filter_cons_True by done.
      rewrite filter_cons_True
        by (unfold commandMatches; rewrite E; simpl; congruence).
      rewrite !fmap_cons. f_equal. exact IH.
    + rewrite filter_cons_False by (simpl; congruence).
      rewrite filter_cons_False
        by (unfold commandMatches; rewrite E; simpl; congruence).
      exact IH.
  - rewrite filter_cons_False
      by (unfold commandMatches; rewrite E; simpl; congruence).
    exact IH.
Qed.

Lemma commandCalls_run cs token options msg (c : ascii) txt :
  TelegramBot.text msg = Some (String c txt) ->
  commandCalls (run cs (new token options)) msg
  = (fun cb => CommandHandlerCalled cb msg) <$>
      (if TelegramBot.onlyFirstMatch options then take 1 else id)
        (CommandHandler.handler <$>
           filter (fun cmd => commandMatches cmd (String c txt) = Some true)
                  (registeredCommands cs)).
Proof.
  intros Htxt. unfold commandCalls, TelegramBot.textCallbacks. rewrite Htxt.
  rewrite run_options, run_textRegexpCallbacks. simpl. f_equal.
  rewrite <- matching_patternCallbacks.
  destruct (TelegramBot.onlyFirstMatch options).
  - apply matchText_first.
  - apply matchText_all.
Qed.

End Routing.



(** C6.  A message without a text (or with the empty text) has no effect
    at all, and a message whose text matches no registered command and no
    registered trigger has no handler called.  Dispatch has no failing
    outcome, and no reply is sent: the router's only effects are handler
    calls, and there are none. *)
Theorem unmatched_message_is_ignored
        (token : string) (options : TelegramBot.ConstructorOptions)
        (cs : list call) (msg : TelegramBot.Message) (txt : string) :
  let s := run cs (new token options) in
  (truthy (TelegramBot.text msg) = false -> deliver s msg = [])
  /\ (TelegramBot.text msg = Some txt ->
      Forall (fun c => commandMatches c txt = Some false) (commands s) ->
      Forall (fun h => triggerMatches (MessageHandler.trigger h) txt = false)
             (messageHandlers s) ->
      calls (deliver s msg) = []).
Proof.
  intros s. subst s. rewrite deliver_run. split.
  - intros Hno. unfold handleMessage, commandCalls, TelegramBot.textCallbacks.
    by destruct (TelegramBot.text msg) as [[|c t]|].
  - intros Htxt Hcmds Hhs.
    unfold handleMessage, commandCalls, TelegramBot.textCallbacks.
    rewrite Htxt. destruct txt as [|c t]; [done|].
    unfold calls. rewrite filter_app.
    fold (calls (handleMessage_loop
                   (messageHandlers (run cs (new token options))) msg
                   (String c t))).
    rewrite handleMessage_loop_no_match by done.
    rewrite run_textRegexpCallbacks, matchText_no_match; [done|].
    apply patternCallback_no_match.
    rewrite run_commands in Hcmds. by simpl in Hcmds.
Qed.

Lemma unmatched_message_is_ignored_witness :
  (truthy (TelegramBot.text Sample.photo) = false
   /\ TelegramBot.text (Sample.message "good morning") = Some "good morning"
   /\ Forall (fun c => commandMatches c "good morning" = Some false)
             (commands (run [RegisterCommand Sample.start;
                             RegisterMessageHandler Sample.onHello]
                            Sample.service))
   /\ Forall (fun h => triggerMatches (MessageHandler.trigger h) "good morning"
                       = false)
             (messageHandlers (run [RegisterCommand Sample.start;
                                    RegisterMessageHandler Sample.onHello]
                                   Sample.service)))
  /\ deliver (run [RegisterCommand Sample.start;
                   RegisterMessageHandler Sample.onHello] Sample.service)
             Sample.photo = []
  /\ calls (deliver (run [RegisterCommand Sample.start;
                          RegisterMessageHandler Sample.onHello] Sample.service)
                    (Sample.message "good morning")) = [].
Proof.
  split; [repeat split; repeat constructor|].
  split.
  - apply (proj1 (unmatched_message_is_ignored "token" defaultOptions
                      [RegisterCommand Sample.start;
                       RegisterMessageHandler Sample.onHello]
                      Sample.photo "")).
    reflexivity.
  - apply (proj2 (unmatched_message_is_ignored "token" defaultOptions
                      [RegisterCommand Sample.start;
                       RegisterMessageHandler Sample.onHello]
                      (Sample.message "good morning") "good morning")).
    + reflexivity.
    + repeat constructor.
    + repeat constructor.
Defined.



(** ** String triggers *)



(** ** Command patterns *)

Section CommandPatterns.

Lemma isLiteralName_String (c : ascii) (name : string) :
  isLiteralName (String c name) = true ->
  isSyntaxCharacter c = false /\ isLiteralName name = true.
Proof.
  simpl. rewrite andb_true_iff, negb_true_iff. done.
Qed.

Lemma atom_of_literal (c : ascii) :
  isSyntaxCharacter c = false ->
  atom_of_char c = Some (Lit c) /\ Ascii.eqb c "|" = false.
Proof.
  intros H. unfold atom_of_char. rewrite H.
  assert (forall d, isSyntaxCharacter d = true -> Ascii.eqb c d = false) as Hd.
  { intros d Hd. apply Ascii.eqb_neq. intros ->. congruence. }
  rewrite (Hd "^"%char), (Hd "$"%char), (Hd "."%char), (Hd "|"%char)
    by reflexivity.
  done.
Qed.

Lemma parse_literal (name : string) :
  isLiteralName name = true -> parse name = Some [literals name].
Proof.
  induction name as [|c name IH]; [done|].
  intros [Hc Hname]%isLiteralName_String.
  destruct (atom_of_literal c Hc) as [Ha Hbar].
  simpl. by rewrite IH, Hbar, Ha.
Qed.

Lemma RegExp_new_command (name : string) :
  isLiteralName name = true ->
  RegExp_new ("^/" +:+ name)
  = Some (mkRegExp [AssertStart :: Lit "/" :: literals name]).
Proof.
  intros H. unfold RegExp_new.
  change ("^/" +:+ name) with (String "^" (String "/" name)).
  cbn [parse]. by rewrite (parse_literal name H).
Qed.

Lemma match_literals (name : string) (pos : nat) (rest : string) :
  match_alternative (literals name) pos rest = startsWith rest name.
Proof.
  revert pos rest. induction name as [|c name IH]; intros pos rest.
  - by destruct rest.
  - destruct rest as [|d rest]; [done|].
    simpl. unfold startsWith in *. simpl. rewrite IH.
    destruct (ascii_dec c d) as [->|Hne].
    + by rewrite Ascii.eqb_refl.
    + apply Ascii.eqb_neq in Hne. by rewrite Hne.
Qed.

Lemma match_at_anchored (alt : alternative) (pos : nat) (rest : string) :
  match_at (mkRegExp [AssertStart :: alt]) pos rest
  = (pos =? 0)%nat && match_alternative alt pos rest.
Proof. unfold match_at. simpl. by rewrite orb_false_r. Qed.

Lemma search_anchored (alt : alternative) (pos : nat) (rest : string) :
  search (mkRegExp [AssertStart :: alt]) (S pos) rest = false.
Proof.
  revert pos. induction rest as [|c rest IH]; intros pos.
  - cbn [search]. by rewrite match_at_anchored.
  - cbn [search]. by rewrite match_at_anchored, IH.
Qed.

Lemma RegExp_test_anchored (alt : alternative) (txt : string) :
  RegExp_test (mkRegExp [AssertStart :: alt]) txt
  = match_alternative alt 0 txt.
Proof.
  unfold RegExp_test. destruct txt as [|c txt]; cbn [search].
  - by rewrite match_at_anchored, orb_false_r.
  - by rewrite match_at_anchored, search_anchored, orb_false_r.
Qed.

(** For a literal name the pattern [^/name] is a prefix test. *)
Lemma commandMatches_literal (command : CommandHandler.t) (txt : string) :
  isLiteralName (CommandHandler.command command) = true ->
  commandMatches command txt
  = Some (startsWith txt ("/" +:+ CommandHandler.command command)).
Proof.
  intros H. unfold commandMatches.
  rewrite (RegExp_new_command _ H). simpl. f_equal.
  rewrite RegExp_test_anchored.
  change (Lit "/" :: literals (CommandHandler.command command))
    with (literals ("/" +:+ CommandHandler.command command)).
  apply match_literals.
Qed.

End CommandPatterns.

(** C2, as the code has it.  For commands whose names are made of literal
    characters, a text matches a command exactly when it begins with
    [/name], whatever follows; the commands called for a text are those it
    matches, in registration order: all of them, so that for [add]
    registered before [addword] the text [/addword extra] has the handler
    of [add] called first and that of [addword] after it, or the first of
    them only when the client was made with [onlyFirstMatch]. *)
Theorem literal_command_matches_by_prefix
        (token : string) (options : TelegramBot.ConstructorOptions)
        (cs : list call) (msg : TelegramBot.Message)
        (c : ascii) (txt : string) :
  TelegramBot.text msg = Some (String c txt) ->
  Forall (fun cmd => isLiteralName (CommandHandler.command cmd) = true)
         (registeredCommands cs) ->
  (forall txt',
      Forall (fun cmd =>
                commandMatches cmd txt'
                = Some (startsWith txt' ("/" +:+ CommandHandler.command cmd)))
             (registeredCommands cs))
  /\ commandCalls (run cs (new token options)) msg
     = (fun cb => CommandHandlerCalled cb msg) <$>
         (if TelegramBot.onlyFirstMatch options then take 1 else id)
           (CommandHandler.handler <$>
              filter (fun cmd =>
                        startsWith (String c txt)
                                   ("/" +:+ CommandHandler.command cmd) = true)
                     (registeredCommands cs)).
Proof.
  intros Htxt Hlit. split.
  - intros txt'. eapply Forall_impl; [exact Hlit|].
    intros cmd Hcmd. by apply commandMatches_literal.
  - rewrite (commandCalls_run _ _ _ _ c txt Htxt). do 3 f_equal.
    induction Hlit as [|cmd cmds Hcmd _ IH]; [done|].
    pose proof (commandMatches_literal cmd (String c txt) Hcmd) as E.
    destruct (startsWith (String c txt) ("/" +:+ CommandHandler.command cmd))
      eqn:P.
    + rewrite !filter_cons_True by done. by rewrite IH.
    + rewrite !filter_cons_False by congruence. done.
Qed.

Lemma literal_command_matches_by_prefix_witness :
  (TelegramBot.text (Sample.message "/addword extra") = Some "/addword extra"
   /\ Forall (fun cmd => isLiteralName (CommandHandler.command cmd) = true)
             (registeredCommands [RegisterCommand Sample.add;
                                  RegisterCommand Sample.addword]))
  /\ commandCalls (run [RegisterCommand Sample.add;
                        RegisterCommand Sample.addword] Sample.service)
                  (Sample.message "/addword extra")
     = [CommandHandlerCalled 3 (Sample.message "/addword extra");
        CommandHandlerCalled 4 (Sample.message "/addword extra")].
Proof.
  split; [split; [reflexivity | repeat constructor]|].
  refine (proj2 (literal_command_matches_by_prefix
                   "token" defaultOptions
                   [RegisterCommand Sample.add; RegisterCommand Sample.addword]
                   (Sample.message "/addword extra") "/" "addword extra"
                   eq_refl _)).
  repeat constructor.
Defined.

(** C2, refuted as stated.  The name [a.c] gives the pattern [^/a.c], which
    matches the text [/abc] although that text does not begin with
    [/a.c]; and with [add] registered before [addword] the text
    [/addword extra] has both handlers called, not the first one only. *)
Lemma command_match_is_not_prefix_or_first_only :
  commandMatches Sample.dotted "/abc" = Some true
  /\ startsWith "/abc" ("/" +:+ CommandHandler.command Sample.dotted) = false
  /\ calls (deliver (run [RegisterCommand Sample.add;
                          RegisterCommand Sample.addword] Sample.service)
                    (Sample.message "/addword extra"))
     = [CommandHandlerCalled 3 (Sample.message "/addword extra");
        CommandHandlerCalled 4 (Sample.message "/addword extra")].
Proof. repeat split. Qed.

(** ** Configuration *)

(** C9.  A setting whose environment variable is not set is the empty
    string; [envConfig] is total and each of its fields is a string, so a
    missing variable never makes the configuration fail. *)
Theorem envConfig_missing_variable_is_empty (env : gmap string string) :
  (env !! "TELEGRAM_TOKEN" = None ->
   EnvConfig.telegramToken (EnvConfig.envConfig env) = "")
  /\ (env !! "GOOGLE_KEY_FILE_PATH" = None ->
      EnvConfig.googleKeyFilePath (EnvConfig.envConfig env) = "")
  /\ (env !! "GOOGLE_SPREADSHEET_ID" = None ->
      EnvConfig.spreadsheetId (EnvConfig.envConfig env) = "").
Proof.
  unfold EnvConfig.envConfig. simpl.
  repeat split; intros ->; reflexivity.
Qed.

Lemma envConfig_missing_variable_is_empty_witness :
  ((∅ : gmap string string) !! "TELEGRAM_TOKEN" = None
   /\ (∅ : gmap string string) !! "GOOGLE_KEY_FILE_PATH" = None
   /\ (∅ : gmap string string) !! "GOOGLE_SPREADSHEET_ID" = None)
  /\ EnvConfig.envConfig ∅ = EnvConfig.mk "" "" "".
Proof.
  split; [repeat split|].
  destruct (envConfig_missing_variable_is_empty ∅) as (H1 & H2 & H3).
  destruct (EnvConfig.envConfig ∅) as [a b c]. simpl in *.
  by rewrite (H1 eq_refl), (H2 eq_refl), (H3 eq_refl).
Defined.

(** ** Logger *)

(** C10.  Whatever the level, [log] appends the same line to the log file:
    the timestamp in brackets, the prefix followed by a space when there is
    a prefix, [": "], the message and a line feed; the level is not part of
    it.  The level chooses the colour of the console line and nothing else.
    When the file cannot be written, [log] reports that on the console and
    returns as usual, the files untouched. *)
Theorem log_line_ignores_level
        (this : Logger.t) (level level' : Logger.LogLevel)
        (message : string) (w : Logger.World) :
  let line :=
    "[" +:+ Logger.now w +:+ "]"
    +:+ match Logger.prefix this with
        | EmptyString => ""
        | String _ _ => Logger.prefix this +:+ " "
        end
    +:+ ": " +:+ message in
  Logger.files (Logger.log this level message w)
  = Logger.files (Logger.log this level' message w)
  /\ Logger.content (Logger.getColoredMessage level line) = line
  /\ match Logger.appendError w (Logger.logFile this) with
     | None =>
         Logger.files (Logger.log this level message w)
         = <[Logger.logFile this :=
               default "" (Logger.files w !! Logger.logFile this)
               +:+ line +:+ Logger.LF]> (Logger.files w)
         /\ Logger.console (Logger.log this level message w)
            = Logger.console w
              ++ [Logger.ConsoleLog (Logger.getColoredMessage level line)]
     | Some err =>
         Logger.files (Logger.log this level message w) = Logger.files w
         /\ Logger.console (Logger.log this level message w)
            = Logger.console w
              ++ [Logger.ConsoleLog (Logger.getColoredMessage level line);
                  Logger.ConsoleError
                    (Logger.chalk (Some Logger.red)
                       ("[LOGGER ERROR]: Unable to write to file - " +:+ err))]
     end.
Proof.
  intros line.
  assert (Logger.logMessage this (Logger.now w) message = line) as Hline.
  { unfold Logger.logMessage, line. by destruct (Logger.prefix this). }
  unfold Logger.log, Logger.appendFileSync. simpl. rewrite Hline.
  destruct (Logger.appendError w (Logger.logFile this)) as [err|]; simpl.
  - repeat split; [by destruct level | by rewrite <- app_assoc].
  - repeat split. by destruct level.
Qed.

(** ** Evaluations on the sample registries *)

Example setCommands_sample :
  TelegramBot.myCommands
    (bot (setCommands (run [RegisterCommand Sample.start;
                            RegisterMessageHandler Sample.onHello;
                            RegisterCommand Sample.help] Sample.service)))
  = [[TelegramBot.mkBotCommand "start" "Start the bot";
      TelegramBot.mkBotCommand "help" "Show help"]].
Proof. reflexivity. Qed.

Example onlyFirstMatch_sample :
  calls (deliver (run [RegisterCommand Sample.add;
                       RegisterCommand Sample.addword]
                      Sample.serviceFirstMatch)
                 (Sample.message "/addword extra"))
  = [CommandHandlerCalled 3 (Sample.message "/addword extra")].
Proof. reflexivity. Qed.

Example command_in_the_middle_sample :
  deliver (run [RegisterCommand Sample.start] Sample.service)
          (Sample.message "please /start") = [].
Proof. reflexivity. Qed.

Example empty_text_sample :
  deliver (run [RegisterCommand Sample.start;
                RegisterMessageHandler Sample.onHello] Sample.service)
          (Sample.message "") = [].
Proof. reflexivity. Qed.

Example pattern_outside_fragment_sample :
  commandMatches (CommandHandler.mk "a*" "Starred" 6) "/aa" = None
  /\ commands (state_of (registerCommand (CommandHandler.mk "a*" "Starred" 6)
                                         Sample.service))
     = [CommandHandler.mk "a*" "Starred" 6].
Proof. split; reflexivity. Qed.

Example log_sample :
  Logger.files
    (Logger.warn (Logger.mk "bot" "/srv/app.log") "disk almost full"
       (Logger.mkWorld "2024-05-01T10:00:00.000Z" ∅ (fun _ => None) []))
  !! "/srv/app.log"
  = Some ("[2024-05-01T10:00:00.000Z]bot : disk almost full" +:+ Logger.LF).
Proof. reflexivity. Qed.

(** * Further properties *)

Local Set Warnings "-clear-no-such-hyp".

(** ** Routing, continued *)

Section MoreRouting.

Implicit Types (s : TelegramBotService.t) (cs : list call)
         (msg : TelegramBot.Message) (txt : string)
         (hs : list MessageHandler.t).



Lemma run_app cs cs' s : run (cs ++ cs') s = run cs' (run cs s).
Proof. unfold run. apply foldl_app. Qed.

Lemma step_myCommands_registerCommand s command :
  TelegramBot.myCommands (bot (step s (RegisterCommand command)))
  = TelegramBot.myCommands (bot s).
Proof. simpl. unfold registerCommand. by destruct (RegExp_new _). Qed.

Lemma includes_empty_needle txt : includes txt "" = true.
Proof. by destruct txt. Qed.



Lemma startsWith_comparable txt a b :
  startsWith txt a = true -> startsWith txt b = true ->
  startsWith a b = true \/ startsWith b a = true.
Proof.
  unfold startsWith. revert a b.
  induction txt as [|c txt IH]; intros [|x a] [|y b]; simpl; auto; try done.
  destruct (ascii_dec x c) as [->|]; [|done].
  destruct (ascii_dec y c) as [->|]; [|done].
  destruct (ascii_dec c c); [|done]. apply IH.
Qed.

End MoreRouting.





(** X3.  The empty string is a trigger that matches every text: once a
    message handler with the trigger [""] is registered, every message with
    a text has exactly one message handler called, and it is that handler
    whenever no trigger registered before it matches. *)
Theorem empty_trigger_catches_every_text
        (token : string) (options : TelegramBot.ConstructorOptions)
        (cs cs' : list call) (cb : callback)
        (mid cid : Z) (c : ascii) (txt : string) :
  let s := run (cs ++ RegisterMessageHandler
                        (MessageHandler.mk (MessageHandler.Str "") cb) :: cs')
               (new token options) in
  let msg := TelegramBot.mkMessage mid cid (Some (String c txt)) in
  length (calls (handleMessage s msg)) = 1
  /\ (calls (handleMessage (run cs (new token options)) msg) = [] ->
      calls (handleMessage s msg) = [MessageHandlerCalled cb msg]).
Proof.
  intros s msg.
  set (h := MessageHandler.mk (MessageHandler.Str "") cb).
  assert (triggerMatches (MessageHandler.trigger h) (String c txt) = true)
    as Hh by apply includes_empty_needle.
  assert (forall hs hs',
             length (calls (handleMessage_loop (hs ++ h :: hs') msg
                                               (String c txt))) = 1
             /\ (calls (handleMessage_loop hs msg (String c txt)) = [] ->
                 calls (handleMessage_loop (hs ++ h :: hs') msg (String c txt))
                 = [MessageHandlerCalled cb msg])) as Hloop.
  { intros hs hs'. unfold calls.
    induction hs as [|h0 hs IH]; simpl.
    - by rewrite filter_cons_False by (simpl; auto).
    - rewrite !filter_cons_False by (simpl; auto).
      destruct (triggerMatches (MessageHandler.trigger h0) (String c txt));
        [done | exact IH]. }
  subst s. unfold handleMessage. simpl.
  rewrite !run_messageHandlers. simpl.
  change (cs ++ RegisterMessageHandler h :: cs')
    with (cs ++ [RegisterMessageHandler h] ++ cs').
  rewrite !registeredMessageHandlers_app. simpl.
  apply Hloop.
Qed.

Lemma empty_trigger_catches_every_text_witness :
  calls (handleMessage (run [RegisterMessageHandler Sample.onHello]
                            Sample.service)
                       (TelegramBot.mkMessage 1 42 (Some "good morning")))
  = []
  /\ calls (handleMessage
              (run ([RegisterMessageHandler Sample.onHello]
                    ++ RegisterMessageHandler
                         (MessageHandler.mk (MessageHandler.Str "") 9)
                       :: [RegisterMessageHandler Sample.onNow])
                   Sample.service)
              (TelegramBot.mkMessage 1 42 (Some "good morning")))
     = [MessageHandlerCalled
          9 (TelegramBot.mkMessage 1 42 (Some "good morning"))].
Proof.
  split; [reflexivity|].
  exact (proj2 (empty_trigger_catches_every_text
                  "token" defaultOptions
                  [RegisterMessageHandler Sample.onHello]
                  [RegisterMessageHandler Sample.onNow]
                  9 1 42 "g" "ood morning") eq_refl).
Defined.



(** X5.  The published menu is the registry as it was at the last call of
    [setCommands]: commands registered after it are live but are not in
    the menu. *)
Theorem menu_is_a_snapshot
        (token : string) (options : TelegramBot.ConstructorOptions)
        (cs : list call) (later : list CommandHandler.t) :
  let s := run (cs ++ SetCommands :: (RegisterCommand <$> later))
               (new token options) in
  last (TelegramBot.myCommands (bot s))
  = Some (botCommand <$> registeredCommands cs)
  /\ commands s = registeredCommands cs ++ later.
Proof.
  intros s. subst s.
  change (cs ++ SetCommands :: (RegisterCommand <$> later))
    with (cs ++ [SetCommands] ++ (RegisterCommand <$> later)).
  rewrite !run_app. split.
  - induction later as [|c later IH] using rev_ind.
    + simpl. unfold setCommands. simpl.
      by rewrite last_snoc, run_commands.
    + rewrite fmap_app. simpl. rewrite run_snoc.
      by rewrite step_myCommands_registerCommand.
  - assert (registeredCommands (RegisterCommand <$> later) = later) as Hlater.
    { induction later as [|c later IH]; [done|].
      rewrite fmap_cons.
      change (RegisterCommand c :: (RegisterCommand <$> later))
        with ([RegisterCommand c] ++ (RegisterCommand <$> later)).
      by rewrite registeredCommands_app, IH. }
    rewrite !run_commands, Hlater. simpl. by rewrite app_nil_r.
Qed.

(** X6.  Whatever has been registered, a callback query that carries data
    is answered exactly once, with its own identifier, and one without data
    (or with empty data) is not answered. *)
Theorem callback_query_answered_once
        (token : string) (options : TelegramBot.ConstructorOptions)
        (cs : list call) (query : TelegramBotCalls.CallbackQuery) :
  TelegramBotCalls.deliverCallbackQuery (run cs (new token options)) query
  = if truthy (TelegramBotCalls.data query)
    then [TelegramBotCalls.AnswerCallbackQuery (TelegramBotCalls.id query)]
    else [].
Proof.
  unfold TelegramBotCalls.deliverCallbackQuery, TelegramBot.emit.
  rewrite run_listeners.
  replace (filter _ _) with [("callback_query", CallbackQueryListener)]
    by by vm_compute.
  simpl. unfold TelegramBotCalls.handleCallbackQuery.
  by destruct (truthy _).
Qed.



Section PrefixFree.

Lemma startsWith_slash (a b : string) :
  startsWith ("/" +:+ a) ("/" +:+ b) = startsWith a b.
Proof. reflexivity. Qed.

Lemma prefixFree_filter (cmds : list CommandHandler.t) (txt : string) :
  Forall (fun cmd => isLiteralName (CommandHandler.command cmd) = true) cmds ->
  prefixFree (CommandHandler.command <$> cmds) = true ->
  length (filter (fun cmd => commandMatches cmd txt = Some true) cmds) <= 1.
Proof.
  induction 1 as [|cmd cmds Hcmd Hcmds IH]; [simpl; lia|].
  rewrite fmap_cons. cbn [prefixFree].
  intros [Hfirst Hrest]%andb_true_iff.
  specialize (IH Hrest).
  destruct (startsWith txt ("/" +:+ CommandHandler.command cmd)) eqn:E.
  - rewrite filter_cons_True by by rewrite commandMatches_literal, E.
    replace (filter _ cmds) with (@nil CommandHandler.t); [simpl; lia|].
    symmetry. clear IH Hrest.
    induction Hcmds as [|cmd' cmds Hcmd' _ IH']; [done|].
    rewrite fmap_cons in Hfirst. cbn [forallb] in Hfirst.
    apply andb_true_iff in Hfirst as [Hpair Hfirst].
    apply andb_true_iff in Hpair as [H1 H2].
    apply negb_true_iff in H1, H2.
    rewrite filter_cons_False; [by apply IH'|].
    rewrite commandMatches_literal by done.
    intros [= E'].
    destruct (startsWith_comparable _ _ _ E E') as [H|H];
      rewrite startsWith_slash in H; congruence.
  - rewrite filter_cons_False; [lia|].
    rewrite commandMatches_literal, E by done. congruence.
Qed.

Lemma filter_literal (cmds : list CommandHandler.t) (txt : string) :
  Forall (fun cmd => isLiteralName (CommandHandler.command cmd) = true) cmds ->
  filter (fun cmd => commandMatches cmd txt = Some true) cmds
  = filter (fun cmd =>
              startsWith txt ("/" +:+ CommandHandler.command cmd) = true) cmds.
Proof.
  induction 1 as [|cmd cmds Hcmd _ IH]; [done|].
  pose proof (commandMatches_literal cmd txt Hcmd) as E.
  destruct (startsWith txt ("/" +:+ CommandHandler.command cmd)) eqn:P.
  - rewrite !filter_cons_True by done. by rewrite IH.
  - rewrite !filter_cons_False by congruence. done.
Qed.

Lemma commandCalls_prefixFree
      (token : string) (options : TelegramBot.ConstructorOptions)
      (cs : list call) (msg : TelegramBot.Message) :
  Forall (fun cmd => isLiteralName (CommandHandler.command cmd) = true)
         (registeredCommands cs) ->
  prefixFree (CommandHandler.command <$> registeredCommands cs) = true ->
  length (commandCalls (run cs (new token options)) msg) <= 1
  /\ commandCalls (run cs (new token options)) msg
     = (fun cmd => CommandHandlerCalled (CommandHandler.handler cmd) msg) <$>
         filter (fun cmd =>
                   startsWith (default "" (TelegramBot.text msg))
                              ("/" +:+ CommandHandler.command cmd) = true)
                (registeredCommands cs).
Proof.
  intros Hlit Hfree.
  destruct (TelegramBot.text msg) as [[|c txt]|] eqn:Htxt.
  - unfold commandCalls, TelegramBot.textCallbacks. rewrite Htxt. simpl.
    split; [lia|].
    clear. induction (registeredCommands cs) as [|cmd cmds IH]; [done|].
    by rewrite filter_cons_False by done.
  - pose proof (prefixFree_filter _ (String c txt) Hlit Hfree) as Hlen.
    rewrite (commandCalls_run _ _ _ _ c txt Htxt), length_fmap.
    assert ((if TelegramBot.onlyFirstMatch options then take 1 else id)
              (CommandHandler.handler <$>
                 filter (fun cmd => commandMatches cmd (String c txt)
                                    = Some true) (registeredCommands cs))
            = CommandHandler.handler <$>
                filter (fun cmd => commandMatches cmd (String c txt)
                                   = Some true) (registeredCommands cs)) as ->.
    { destruct (TelegramBot.onlyFirstMatch options); [|done].
      apply take_ge. by rewrite length_fmap. }
    rewrite length_fmap. split; [done|].
    rewrite <- list_fmap_compose. simpl. by rewrite filter_literal.
  - unfold commandCalls, TelegramBot.textCallbacks. rewrite Htxt. simpl.
    split; [lia|].
    clear. induction (registeredCommands cs) as [|cmd cmds IH]; [done|].
    by rewrite filter_cons_False by done.
Qed.

End PrefixFree.

(** X8.  When the registered command names are literal and none of them
    begins another, a message has at most one command handler called,
    whatever the options of the client. *)
Theorem prefix_free_names_call_one_command
        (token : string) (options : TelegramBot.ConstructorOptions)
        (cs : list call) (msg : TelegramBot.Message) :
  Forall (fun cmd => isLiteralName (CommandHandler.command cmd) = true)
         (registeredCommands cs) ->
  prefixFree (CommandHandler.command <$> registeredCommands cs) = true ->
  length (commandCalls (run cs (new token options)) msg) <= 1.
Proof.
  intros Hlit Hfree.
  by apply (commandCalls_prefixFree token options cs msg Hlit Hfree).
Qed.

Lemma prefix_free_names_call_one_command_witness :
  (Forall (fun cmd => isLiteralName (CommandHandler.command cmd) = true)
          (registeredCommands [RegisterCommand Main.start;
                               RegisterCommand Main.help;
                               RegisterCommand Main.about;
                               RegisterCommand Main.sheetlink;
                               RegisterCommand Main.addenglishword])
   /\ prefixFree (CommandHandler.command <$>
                    registeredCommands [RegisterCommand Main.start;
                                        RegisterCommand Main.help;
                                        RegisterCommand Main.about;
                                        RegisterCommand Main.sheetlink;
                                        RegisterCommand Main.addenglishword])
      = true)
  /\ length (commandCalls
               (run [RegisterCommand Main.start;
                     RegisterCommand Main.help;
                     RegisterCommand Main.about;
                     RegisterCommand Main.sheetlink;
                     RegisterCommand Main.addenglishword] Sample.service)
               (Sample.message "/about me")) <= 1.
Proof.
  assert (Forall (fun cmd => isLiteralName (CommandHandler.command cmd) = true)
                 (registeredCommands [RegisterCommand Main.start;
                                      RegisterCommand Main.help;
                                      RegisterCommand Main.about;
                                      RegisterCommand Main.sheetlink;
                                      RegisterCommand Main.addenglishword]))
    as H by repeat constructor.
  split; [split; [exact H | reflexivity]|].
  exact (prefix_free_names_call_one_command
           "token" defaultOptions _ (Sample.message "/about me") H eq_refl).
Defined.

(** ** The application as bootstrapped *)

Section Bootstrap.

Lemma bootstrap_bot (cfg : EnvConfig.t) (join : string -> string -> string)
      (dirname : string) (w : Logger.World) :
  Main.bot (fst (Main.bootstrap (Main.new cfg join dirname) w))
  = run [RegisterCommand Main.start; RegisterCommand Main.help;
         RegisterCommand Main.about; RegisterCommand Main.sheetlink;
         RegisterCommand Main.addenglishword]
        (new (EnvConfig.telegramToken cfg) defaultOptions).
Proof. reflexivity. Qed.

End Bootstrap.

(** X9.  After [bootstrap] the registry holds the five commands [start],
    [help], [about], [sheetlink] and [addenglishword], no message handler
    and no published menu.  So no message has a trigger handler called, and
    a message has the handler of a command called exactly when its text
    begins with [/] and that command's name; this is never the case for
    two commands at once. *)
Theorem bootstrap_routes_by_command_name
        (cfg : EnvConfig.t) (join : string -> string -> string)
        (dirname : string) (w : Logger.World) (msg : TelegramBot.Message) :
  let app := fst (Main.bootstrap (Main.new cfg join dirname) w) in
  commands (Main.bot app)
  = [Main.start; Main.help; Main.about; Main.sheetlink; Main.addenglishword]
  /\ messageHandlers (Main.bot app) = []
  /\ TelegramBot.myCommands (bot (Main.bot app)) = []
  /\ handleMessage (Main.bot app) msg = []
  /\ calls (deliver (Main.bot app) msg)
     = (fun cmd => CommandHandlerCalled (CommandHandler.handler cmd) msg) <$>
         filter (fun cmd =>
                   startsWith (default "" (TelegramBot.text msg))
                              ("/" +:+ CommandHandler.command cmd) = true)
                (commands (Main.bot app))
  /\ length (calls (deliver (Main.bot app) msg)) <= 1.
Proof.
  intros app. subst app. rewrite bootstrap_bot.
  set (cs := [RegisterCommand Main.start; RegisterCommand Main.help;
              RegisterCommand Main.about; RegisterCommand Main.sheetlink;
              RegisterCommand Main.addenglishword]).
  assert (Forall (fun cmd => isLiteralName (CommandHandler.command cmd) = true)
                 (registeredCommands cs)) as Hlit by repeat constructor.
  assert (handleMessage (run cs (new (EnvConfig.telegramToken cfg)
                                     defaultOptions)) msg = []) as Hno.
  { unfold handleMessage. by destruct (TelegramBot.text msg) as [[|c txt]|]. }
  assert (calls (deliver (run cs (new (EnvConfig.telegramToken cfg)
                                      defaultOptions)) msg)
          = commandCalls (run cs (new (EnvConfig.telegramToken cfg)
                                      defaultOptions)) msg) as Hcalls.
  { rewrite deliver_run, Hno. simpl. unfold calls, commandCalls.
    induction (TelegramBot.textCallbacks _ msg) as [|cb l IH]; [done|].
    rewrite fmap_cons, filter_cons_True by done. by rewrite IH. }
  destruct (commandCalls_prefixFree (EnvConfig.telegramToken cfg)
              defaultOptions cs msg Hlit eq_refl) as [Hlen Heq].
  rewrite Hcalls.
  repeat split; try reflexivity; try done.
Qed.

(** ** Configuration, continued *)

(** X10.  The configuration reads the three variables and nothing else:
    setting or removing any other variable leaves it as it was. *)
Theorem envConfig_ignores_other_variables
        (env : gmap string string) (name value : string) :
  (name ∉ ["TELEGRAM_TOKEN"; "GOOGLE_KEY_FILE_PATH"; "GOOGLE_SPREADSHEET_ID"]) ->
  EnvConfig.envConfig (<[name := value]> env) = EnvConfig.envConfig env
  /\ EnvConfig.envConfig (delete name env) = EnvConfig.envConfig env.
Proof.
  intros Hname. unfold EnvConfig.envConfig.
  assert (name <> "TELEGRAM_TOKEN" /\ name <> "GOOGLE_KEY_FILE_PATH"
          /\ name <> "GOOGLE_SPREADSHEET_ID") as (H1 & H2 & H3).
  { repeat split; intros ->; apply Hname; set_solver. }
  by rewrite !lookup_insert_ne, !lookup_delete_ne.
Qed.

Lemma envConfig_ignores_other_variables_witness :
  ("HOME" ∉ ["TELEGRAM_TOKEN"; "GOOGLE_KEY_FILE_PATH"; "GOOGLE_SPREADSHEET_ID"])
  /\ EnvConfig.envConfig (<["HOME" := "/root"]> {["TELEGRAM_TOKEN" := "t0k"]})
     = EnvConfig.envConfig {["TELEGRAM_TOKEN" := "t0k"]}.
Proof.
  assert ("HOME" ∉ ["TELEGRAM_TOKEN"; "GOOGLE_KEY_FILE_PATH";
                    "GOOGLE_SPREADSHEET_ID"]) as H.
  { intros Hin. repeat (apply elem_of_cons in Hin as [Hin|Hin]; [done|]).
    by apply elem_of_nil in Hin. }
  split; [exact H|].
  exact (proj1 (envConfig_ignores_other_variables
                  {["TELEGRAM_TOKEN" := "t0k"]} "HOME" "/root" H)).
Defined.

(** X11.  A variable set to a non-empty value is passed on unchanged, and
    a variable set to the empty string is the same as one that is not
    set. *)
Theorem envConfig_passes_values_on
        (env : gmap string string) (name : string) (c : ascii) (v : string) :
  EnvConfig.telegramToken
    (EnvConfig.envConfig (<["TELEGRAM_TOKEN" := String c v]> env))
  = String c v
  /\ EnvConfig.googleKeyFilePath
       (EnvConfig.envConfig (<["GOOGLE_KEY_FILE_PATH" := String c v]> env))
     = String c v
  /\ EnvConfig.spreadsheetId
       (EnvConfig.envConfig (<["GOOGLE_SPREADSHEET_ID" := String c v]> env))
     = String c v
  /\ EnvConfig.envConfig (<[name := ""]> env)
     = EnvConfig.envConfig (delete name env).
Proof.
  unfold EnvConfig.envConfig. simpl.
  rewrite !lookup_insert_eq. repeat split.
  rewrite !lookup_insert, !lookup_delete.
  repeat case_decide; done.
Qed.

(** ** Logger, continued *)

Section LoggerSequences.

Lemma append_empty_r (a : string) : a +:+ "" = a.
Proof. induction a as [|c a IH]; [done|]. by rewrite append_String, IH. Qed.

Lemma foldr_append_end (xs : list string) (l : string) :
  foldr String.append "" xs +:+ l = foldr String.append l xs.
Proof.
  induction xs as [|x xs IH]; [done|].
  simpl. by rewrite append_assoc, IH.
Qed.

Lemma log_files_ok (this : Logger.t) (level : Logger.LogLevel)
      (message : string) (w : Logger.World) :
  Logger.appendError w (Logger.logFile this) = None ->
  Logger.files (Logger.log this level message w)
  = <[Logger.logFile this :=
        default "" (Logger.files w !! Logger.logFile this)
        +:+ Logger.logMessage this (Logger.now w) message +:+ Logger.LF]>
      (Logger.files w)
  /\ Logger.appendError (Logger.log this level message w)
     = Logger.appendError w
  /\ length (Logger.console (Logger.log this level message w))
     = S (length (Logger.console w)).
Proof.
  intros H. unfold Logger.log, Logger.appendFileSync. simpl. rewrite H. simpl.
  repeat split. rewrite length_app. simpl. lia.
Qed.

End LoggerSequences.

(** X12.  As long as the log file can be written, a sequence of [log]
    calls leaves in it what it held before followed by the lines of the
    calls in their order; no other file is touched, and the console gets
    one line per call. *)
Theorem logs_append_in_order
        (this : Logger.t) (entries : list (string * Logger.LogLevel * string))
        (w : Logger.World) :
  Logger.appendError w (Logger.logFile this) = None ->
  default "" (Logger.files (logAll this entries w) !! Logger.logFile this)
  = default "" (Logger.files w !! Logger.logFile this)
    +:+ foldr String.append "" (lineOf this <$> entries)
  /\ (forall path, path <> Logger.logFile this ->
        Logger.files (logAll this entries w) !! path
        = Logger.files w !! path)
  /\ length (Logger.console (logAll this entries w))
     = length (Logger.console w) + length entries.
Proof.
  intros Hok.
  assert (Logger.appendError (logAll this entries w) = Logger.appendError w
          /\ default "" (Logger.files (logAll this entries w)
                         !! Logger.logFile this)
             = default "" (Logger.files w !! Logger.logFile this)
               +:+ foldr String.append "" (lineOf this <$> entries)
          /\ (forall path, path <> Logger.logFile this ->
                Logger.files (logAll this entries w) !! path
                = Logger.files w !! path)
          /\ length (Logger.console (logAll this entries w))
             = length (Logger.console w) + length entries) as H; [|tauto].
  induction entries as [|[[ts level] message] entries IH] using rev_ind.
  - simpl. repeat split; [|lia].
    by rewrite append_empty_r.
  - destruct IH as (IHe & IHf & IHo & IHc).
    unfold logAll in *. rewrite foldl_app. simpl.
    set (w1 := foldl _ w entries) in *.
    set (w2 := {| Logger.now := ts; Logger.files := Logger.files w1;
                  Logger.appendError := Logger.appendError w1;
                  Logger.console := Logger.console w1 |}).
    assert (Logger.appendError w2 (Logger.logFile this) = None) as Hok2
      by (simpl; by rewrite IHe).
    destruct (log_files_ok this level message w2 Hok2) as (Hf & He & Hc).
    rewrite Hf, He, Hc. simpl. repeat split.
    + done.
    + rewrite lookup_insert_eq. simpl. rewrite IHf.
      rewrite fmap_app, foldr_app. simpl.
      unfold lineOf at 2. simpl. rewrite append_empty_r.
      rewrite !append_assoc. f_equal. apply foldr_append_end.
    + intros path Hpath. rewrite lookup_insert_ne by done. by apply IHo.
    + rewrite IHc, length_app. simpl. lia.
Qed.

Lemma logs_append_in_order_witness :
  Logger.appendError
    (Logger.mkWorld "t0" {["/srv/app.log" := "old" +:+ Logger.LF]}
                    (fun _ => None) [])
    (Logger.logFile (Logger.mk "" "/srv/app.log")) = None
  /\ default ""
       (Logger.files
          (logAll (Logger.mk "" "/srv/app.log")
                  [("t1", Logger.Info, "a"); ("t2", Logger.Error, "b")]
                  (Logger.mkWorld "t0"
                     {["/srv/app.log" := "old" +:+ Logger.LF]}
                     (fun _ => None) []))
        !! "/srv/app.log")
     = "old" +:+ Logger.LF +:+ "[t1]: a" +:+ Logger.LF
       +:+ "[t2]: b" +:+ Logger.LF.
Proof.
  split; [reflexivity|].
  etrans.
  - exact (proj1 (logs_append_in_order
                    (Logger.mk "" "/srv/app.log")
                    [("t1", Logger.Info, "a"); ("t2", Logger.Error, "b")]
                    (Logger.mkWorld "t0"
                       {["/srv/app.log" := "old" +:+ Logger.LF]}
                       (fun _ => None) [])
                    eq_refl)).
  - reflexivity.
Defined.


(** ** Sheet rows as objects *)

Section RowObjects.

Context {cell : Type} (key : cell -> string).

Implicit Types (headers row : list cell)
         (obj : gmap string (option cell)).

Lemma assign_lookup (name name' : string) (v : option cell) obj :
  GoogleApiService.assign name v obj !! name'
  = if decide (name = name' /\ name <> "__proto__")
    then Some v else obj !! name'.
Proof.
  unfold GoogleApiService.assign.
  destruct (String.eqb name "__proto__") eqn:E.
  - apply String.eqb_eq in E. case_decide; [tauto | done].
  - apply String.eqb_neq in E. rewrite lookup_insert.
    repeat case_decide; try done; tauto.
Qed.


Lemma forEach_header_not_in headers index row obj (name : string) :
  name ∉ key <$> headers ->
  GoogleApiService.forEach_header key headers index row obj !! name
  = obj !! name.
Proof.
  revert index obj. induction headers as [|h headers IH]; intros index obj Hn;
    [done|].
  rewrite fmap_cons in Hn. apply not_elem_of_cons in Hn as [Hne Hn].
  cbn [GoogleApiService.forEach_header]. rewrite IH by done.
  rewrite assign_lookup. case_decide; [|done]. naive_solver.
Qed.

Lemma forEach_header_last pre h post index row obj :
  key h ∉ key <$> post -> key h <> "__proto__" ->
  GoogleApiService.forEach_header key (pre ++ h :: post) index row obj
  !! key h
  = Some (row !! (index + length pre)).
Proof.
  intros Hpost Hproto. revert index obj.
  induction pre as [|p pre IH]; intros index obj.
  - simpl. rewrite forEach_header_not_in by done.
    rewrite assign_lookup, Nat.add_0_r. case_decide; [done | tauto].
  - cbn [app GoogleApiService.forEach_header]. rewrite IH. simpl.
    do 2 f_equal. lia.
Qed.

End RowObjects.

(** X13.  [readSheetDataAsObjects] makes one object per row after the
    first: none when fewer than two rows were read, and otherwise the
    objects of the rows in their order, each built with the first row as
    its header. *)
Theorem rowsToObjects_one_per_data_row
        {cell : Type} (key : cell -> string)
        (data : list (list cell)) (headers row : list cell)
        (rows : list (list cell)) :
  length (GoogleApiService.rowsToObjects key data) = length data - 1
  /\ GoogleApiService.rowsToObjects key [] = []
  /\ GoogleApiService.rowsToObjects key [headers] = []
  /\ GoogleApiService.rowsToObjects key (headers :: row :: rows)
     = GoogleApiService.rowObject key headers <$> (row :: rows).
Proof.
  repeat split; try reflexivity.
  destruct data as [|h [|r rs]]; try reflexivity.
  unfold GoogleApiService.rowsToObjects. simpl. rewrite length_fmap. lia.
Qed.


(** X15.  Under a header name a row object holds the cell of the column of
    the last header with that name, or null when the row has no cell in
    that column. *)
Theorem rowObject_last_header_wins
        {cell : Type} (key : cell -> string)
        (pre post : list cell) (h : cell) (row : list cell) :
  (key h ∉ key <$> post) -> key h <> "__proto__" ->
  GoogleApiService.rowObject key (pre ++ h :: post) row !! key h
  = Some (row !! length pre).
Proof.
  intros Hpost Hproto. unfold GoogleApiService.rowObject.
  by rewrite forEach_header_last.
Qed.

Lemma rowObject_last_header_wins_witness :
  ((id "a" ∉ id <$> ["b"]) /\ id "a" <> "__proto__")
  /\ GoogleApiService.rowObject id (["a"] ++ "a" :: ["b"]) ["1"; "2"]
     !! id "a" = Some (Some "2")
  /\ GoogleApiService.rowObject id (["a"] ++ "a" :: ["b"]) ["1"; "2"]
     !! "b" = Some None.
Proof.
  assert (id "a" ∉ id <$> ["b"]) as H.
  { intros Hin. apply list_elem_of_singleton in Hin. discriminate. }
  assert (id "a" <> "__proto__") as H' by discriminate.
  split; [by split|]. split; [|reflexivity].
  exact (rowObject_last_header_wins id ["a"] ["b"] "a" ["1"; "2"] H H').
Defined.

(** X16.  With pairwise different header names, none of them [__proto__],
    reading a row object back header by header gives the cells of the row
    in their order, cut or filled up with null to the length of the
    header. *)
Theorem rowObject_reads_back_the_row
        {cell : Type} (key : cell -> string) (headers row : list cell) :
  NoDup (key <$> headers) -> ("__proto__" ∉ key <$> headers) ->
  (fun h => GoogleApiService.rowObject key headers row !! key h) <$> headers
  = (fun index => Some (row !! index)) <$> seq 0 (length headers).
Proof.
  intros Hdup Hproto.
  apply list_eq. intros i. rewrite !list_lookup_fmap.
  destruct (headers !! i) as [h|] eqn:Hi.
  - rewrite lookup_seq_lt by by eapply lookup_lt_Some. simpl. f_equal.
    apply list_elem_of_split_length in Hi as (pre & post & -> & ->).
    rewrite fmap_app, fmap_cons in Hdup, Hproto.
    apply NoDup_app in Hdup as (_ & _ & Hdup).
    apply NoDup_cons in Hdup as [Hpost _].
    unfold GoogleApiService.rowObject.
    rewrite forEach_header_last; [done | done |].
    intros E. apply Hproto. rewrite <- E. set_solver.
  - rewrite lookup_seq_ge by by apply lookup_ge_None. done.
Qed.

Lemma rowObject_reads_back_the_row_witness :
  (NoDup (id <$> ["en"; "vi"; "note"])
   /\ ("__proto__" ∉ id <$> ["en"; "vi"; "note"]))
  /\ (fun h => GoogleApiService.rowObject id ["en"; "vi"; "note"]
                                         ["cat"; "meo"] !! id h)
       <$> ["en"; "vi"; "note"]
     = [Some (Some "cat"); Some (Some "meo"); Some None].
Proof.
  assert (NoDup (id <$> ["en"; "vi"; "note"])) as H.
  { apply (bool_decide_unpack _). reflexivity. }
  assert ("__proto__" ∉ id <$> ["en"; "vi"; "note"]) as H'.
  { apply (bool_decide_unpack _). reflexivity. }
  split; [by split|].
  exact (rowObject_reads_back_the_row id ["en"; "vi"; "note"]
                                      ["cat"; "meo"] H H').
Defined.

(** X17.  The data of a batch update has one entry per range, in the order
    of the ranges: the entry of a range carries the values at the same
    position, or none when the values run out; values beyond the last
    range are left out. *)
Theorem batchData_follows_the_ranges
        {cell : Type} (ranges : list string)
        (data : list (list (list cell))) (index : nat) :
  length (GoogleApiService.batchData ranges data) = length ranges
  /\ GoogleApiService.batchData ranges data !! index
     = (fun range => (range, data !! index)) <$> ranges !! index.
Proof.
  unfold GoogleApiService.batchData. split.
  - apply length_imap.
  - apply list_lookup_imap.
Qed.

(** ** The Google service object *)

Section GoogleApi.

Context {cell data : Type}.
Context (key : cell -> string).
Context (values : data -> option (list (list cell))).
Context (respond : list (GoogleApiService.Instance
                         * GoogleApiService.request (cell := cell))
                   -> GoogleApiService.Instance
                   -> GoogleApiService.request (cell := cell)
                   -> data + GoogleApiService.error).

Implicit Types (s : GoogleApiService.t)
         (w : GoogleApiService.World (cell := cell))
         (op : GoogleApiService.operation (cell := cell))
         (sv : gmap GoogleApiService.GoogleApiServices
                    GoogleApiService.Instance)
         (rq : list (GoogleApiService.Instance
                     * GoogleApiService.request (cell := cell)))
         (req : GoogleApiService.request (cell := cell)).




Ltac unfold_service :=
  unfold GoogleApiService.perform, GoogleApiService.returning,
    GoogleApiService.initialize, GoogleApiService.getSheetMetadata,
    GoogleApiService.readSheetDataAsObjects, GoogleApiService.readSheetData,
    GoogleApiService.appendSheetData, GoogleApiService.updateSheetData,
    GoogleApiService.clearSheetData, GoogleApiService.batchUpdateSheetData,
    GoogleApiService.createSpreadsheet, GoogleApiService.listDriveFiles,
    GoogleApiService.createDriveFolder, GoogleApiService.uploadFileToDrive,
    GoogleApiService.listGmailMessages, GoogleApiService.getGmailMessage,
    GoogleApiService.try_catch, GoogleApiService.bind,
    GoogleApiService.getService, GoogleApiService.send,
    GoogleApiService.console_error, GoogleApiService.console_log,
    GoogleApiService.ret, GoogleApiService.throw.



Lemma getService_cached service s w i :
  GoogleApiService.services s !! service = Some i ->
  GoogleApiService.client s <> None ->
  GoogleApiService.getService service (s, w) = ((s, w), GoogleApiService.Ok i).
Proof.
  intros Hi Hc. unfold GoogleApiService.getService.
  destruct (GoogleApiService.client s); [|done]. by rewrite Hi.
Qed.




(** X21.  [getService] makes the instance of a service once and keeps it:
    a call that returns leaves the instance in the object, touches neither
    the world nor the instances of the other services, and every later
    call for that service returns the same instance, also after
    [initialize] has been called again, with whatever outcome. *)
Theorem getService_keeps_its_instance
        (service : GoogleApiService.GoogleApiServices) s w
        (s1 : GoogleApiService.t) (w1 : GoogleApiService.World)
        (i : GoogleApiService.Instance)
        (getClient : GoogleApiService.JWT + GoogleApiService.error) :
  GoogleApiService.getService service (s, w)
  = ((s1, w1), GoogleApiService.Ok i) ->
  w1 = w
  /\ GoogleApiService.services s1 !! service = Some i
  /\ (forall k, k <> service ->
        GoogleApiService.services s1 !! k = GoogleApiService.services s !! k)
  /\ GoogleApiService.getService service (s1, w1)
     = ((s1, w1), GoogleApiService.Ok i)
  /\ let sw2 := fst (GoogleApiService.initialize getClient (s1, w1)) in
     GoogleApiService.getService service sw2 = (sw2, GoogleApiService.Ok i).
Proof.
  unfold GoogleApiService.getService at 1.
  destruct (GoogleApiService.client s) as [c|] eqn:Hc; [|done].
  destruct (GoogleApiService.services s !! service) as [i0|] eqn:Hi.
  - intros [= <- <- <-]. repeat split; try done.
    + apply getService_cached; [done | congruence].
    + destruct getClient as [c2|e2]; simpl; by rewrite ?Hc, Hi.
  - intros [= <- <- <-]. simpl. repeat split.
    + apply lookup_insert_eq.
    + intros k Hk. by apply lookup_insert_ne.
    + by rewrite lookup_insert_eq.
    + destruct getClient as [c2|e2]; simpl; by rewrite lookup_insert_eq.
Qed.


(** X23.  On an initialised object [readSheetDataAsObjects] makes exactly
    one call, a read of the given range with the render option
    [FORMATTED_VALUE] unless another one is given, through the instance for
    the sheets.  When the remote side answers, nothing is logged and the
    result is the objects of the rows of the answer, none when the answer
    has no values. *)
Theorem readSheetDataAsObjects_reads_once
        (options : GoogleApiService.SheetReadOptions.t) s w
        (c : GoogleApiService.JWT) (d : data) :
  GoogleApiService.client s = Some c ->
  (forall i,
      respond (GoogleApiService.requests w) i
        (GoogleApiService.ValuesGet
           (GoogleApiService.SheetReadOptions.spreadsheetId options)
           (GoogleApiService.SheetReadOptions.range options)
           (default GoogleApiService.FORMATTED_VALUE
              (GoogleApiService.SheetReadOptions.valueRenderOption options)))
      = inl d) ->
  exists s' i,
    GoogleApiService.readSheetDataAsObjects key values respond options (s, w)
    = ((s',
        GoogleApiService.mkWorld
          (GoogleApiService.console w)
          (GoogleApiService.requests w
           ++ [(i, GoogleApiService.ValuesGet
                     (GoogleApiService.SheetReadOptions.spreadsheetId options)
                     (GoogleApiService.SheetReadOptions.range options)
                     (default GoogleApiService.FORMATTED_VALUE
                        (GoogleApiService.SheetReadOptions.valueRenderOption
                           options)))])),
       GoogleApiService.Ok
         (GoogleApiService.rowsToObjects key (default [] (values d))))
    /\ GoogleApiService.services s' !! GoogleApiService.sheets = Some i.
Proof.
  intros Hc Hd. unfold_service. simpl. rewrite Hc.
  destruct (GoogleApiService.services s !! GoogleApiService.sheets)
    as [i|] eqn:Hi; simpl; rewrite Hd; simpl.
  - by exists s, i.
  - eexists _, _. split; [reflexivity|]. simpl. apply lookup_insert_eq.
Qed.

(** X24.  When the remote side rejects the read, [readSheetDataAsObjects]
    throws what it rejected with, unchanged, after that error has been
    logged twice: once by [readSheetData] and once by
    [readSheetDataAsObjects] itself. *)
Theorem failed_read_is_logged_twice
        (options : GoogleApiService.SheetReadOptions.t) s w
        (c : GoogleApiService.JWT) (e : GoogleApiService.error) :
  GoogleApiService.client s = Some c ->
  (forall i,
      respond (GoogleApiService.requests w) i
        (GoogleApiService.ValuesGet
           (GoogleApiService.SheetReadOptions.spreadsheetId options)
           (GoogleApiService.SheetReadOptions.range options)
           (default GoogleApiService.FORMATTED_VALUE
              (GoogleApiService.SheetReadOptions.valueRenderOption options)))
      = inr e) ->
  exists sw',
    GoogleApiService.readSheetDataAsObjects key values respond options (s, w)
    = (sw', GoogleApiService.Throw e)
    /\ GoogleApiService.console (snd sw')
       = GoogleApiService.console w
         ++ [GoogleApiService.ConsoleError
               "Lỗi khi đọc dữ liệu từ spreadsheet:" e;
             GoogleApiService.ConsoleError
               "Lỗi khi đọc dữ liệu dạng đối tượng từ spreadsheet:" e]
    /\ length (GoogleApiService.requests (snd sw'))
       = S (length (GoogleApiService.requests w)).
Proof.
  intros Hc He. unfold_service. simpl. rewrite Hc.
  destruct (GoogleApiService.services s !! GoogleApiService.sheets)
    as [i|] eqn:Hi; simpl; rewrite He; simpl;
    (eexists; split; [reflexivity|]; simpl; split;
     [by rewrite <- app_assoc | rewrite length_app; simpl; lia]).
Qed.

End GoogleApi.




Lemma getService_keeps_its_instance_witness :
  GoogleApiService.getService (cell := string) GoogleApiService.drive
    (SampleRemote.ready, GoogleApiService.mkWorld [] [])
  = ((GoogleApiService.mk "key.json" GoogleApiService.defaultScopes (Some 7)
        {[GoogleApiService.drive :=
            GoogleApiService.mkInstance GoogleApiService.drive "v3" 7]},
      GoogleApiService.mkWorld [] []),
     GoogleApiService.Ok
       (GoogleApiService.mkInstance GoogleApiService.drive "v3" 7))
  /\ let sw2 :=
       fst (GoogleApiService.initialize (cell := string) (inl 8)
              (GoogleApiService.mk "key.json" GoogleApiService.defaultScopes
                 (Some 7)
                 {[GoogleApiService.drive :=
                     GoogleApiService.mkInstance GoogleApiService.drive
                                                 "v3" 7]},
               GoogleApiService.mkWorld [] [])) in
     GoogleApiService.client (fst sw2) = Some 8
     /\ GoogleApiService.getService GoogleApiService.drive sw2
        = (sw2, GoogleApiService.Ok
                  (GoogleApiService.mkInstance GoogleApiService.drive "v3" 7)).
Proof.
  split; [reflexivity|]. intros sw2. split; [reflexivity|].
  exact (proj2 (proj2 (proj2 (proj2
           (getService_keeps_its_instance (cell := string)
              GoogleApiService.drive SampleRemote.ready
              (GoogleApiService.mkWorld [] []) _ _ _ (inl 8) eq_refl))))).
Defined.

Lemma readSheetDataAsObjects_reads_once_witness :
  (GoogleApiService.client SampleRemote.ready = Some 7
   /\ forall i,
       SampleRemote.accept [] i
         (GoogleApiService.ValuesGet "sheet-1" "A1:D3"
            GoogleApiService.FORMATTED_VALUE) = inl SampleRemote.sheet)
  /\ exists s' i,
      GoogleApiService.readSheetDataAsObjects id SampleRemote.values
        SampleRemote.accept SampleRemote.readOptions
        (SampleRemote.ready, GoogleApiService.mkWorld [] [])
      = ((s', GoogleApiService.mkWorld []
                ([] ++ [(i, GoogleApiService.ValuesGet "sheet-1" "A1:D3"
                              GoogleApiService.FORMATTED_VALUE)])),
         GoogleApiService.Ok
           [{["en" := Some "cat"; "vi" := Some "meo"; "note" := None]};
            {["en" := Some "dog"; "vi" := Some "cho"; "note" := Some "pet"]}])
      /\ GoogleApiService.services s' !! GoogleApiService.sheets = Some i.
Proof.
  split; [by split|].
  destruct (readSheetDataAsObjects_reads_once
              id SampleRemote.values SampleRemote.accept
              SampleRemote.readOptions SampleRemote.ready
              (GoogleApiService.mkWorld [] []) 7 SampleRemote.sheet
              eq_refl (fun _ => eq_refl)) as (s' & i & Hrun & Hi).
  exists s', i. split; [|exact Hi].
  etrans; [exact Hrun|]. reflexivity.
Defined.

Lemma failed_read_is_logged_twice_witness :
  (GoogleApiService.client SampleRemote.ready = Some 7
   /\ forall i,
       SampleRemote.reject [] i
         (GoogleApiService.ValuesGet "sheet-1" "A1:D3"
            GoogleApiService.FORMATTED_VALUE)
       = inr (GoogleApiService.Rejection "quota exceeded"))
  /\ exists sw',
      GoogleApiService.readSheetDataAsObjects id SampleRemote.values
        SampleRemote.reject SampleRemote.readOptions
        (SampleRemote.ready, GoogleApiService.mkWorld [] [])
      = (sw', GoogleApiService.Throw
                (GoogleApiService.Rejection "quota exceeded"))
      /\ length (GoogleApiService.console (snd sw')) = 2.
Proof.
  split; [by split|].
  destruct (failed_read_is_logged_twice
              id SampleRemote.values SampleRemote.reject
              SampleRemote.readOptions SampleRemote.ready
              (GoogleApiService.mkWorld [] []) 7
              (GoogleApiService.Rejection "quota exceeded")
              eq_refl (fun _ => eq_refl)) as (sw' & Hrun & Hcon & _).
  exists sw'. split; [exact Hrun|]. by rewrite Hcon.
Defined.

(** ** The handlers of the application *)

Section Replies.

Context {cell data : Type}.
Context (respond : list (GoogleApiService.Instance
                         * GoogleApiService.request (cell := cell))
                   -> GoogleApiService.Instance
                   -> GoogleApiService.request (cell := cell)
                   -> data + GoogleApiService.error).
Context (showSheets : data -> string).

Implicit Types (cfg : EnvConfig.t) (msg : TelegramBot.Message)
         (sw : GoogleApiService.t * GoogleApiService.World (cell := cell)).

Lemma handlerBody_sends cfg (cb : callback) msg sw :
  match snd (Main.handlerBody respond showSheets cfg cb msg sw) with
  | GoogleApiService.Ok out => length out <= 1 /\ Forall (toSender msg) out
  | GoogleApiService.Throw _ => True
  end.
Proof.
  assert (forall text,
             length (TelegramBotCalls.sendMessage (Main.chat msg) text None)
             <= 1
             /\ Forall (toSender msg)
                   (TelegramBotCalls.sendMessage (Main.chat msg) text None))
    as Hsend.
  { intros text. split; [simpl; lia|]. apply Forall_singleton. by exists text. }
  destruct sw as [s w].
  destruct cb as [|[|[|[|[|cb]]]]]; simpl;
    try apply Hsend; try (split; [simpl; lia | by apply Forall_nil]);
    unfold GoogleApiService.getSheetMetadata,
      GoogleApiService.try_catch, GoogleApiService.bind,
      GoogleApiService.getService, GoogleApiService.send,
      GoogleApiService.console_error, GoogleApiService.console_log,
      GoogleApiService.ret, GoogleApiService.throw; simpl;
    (destruct (GoogleApiService.client s); simpl; [|done]);
    (destruct (GoogleApiService.services s !! GoogleApiService.sheets);
     simpl;
     match goal with
     | |- context [respond ?h ?i ?r] => destruct (respond h i r); simpl
     end; try done; apply Hsend).
Qed.

Lemma runHandlers_commands cfg msg (cbs : list callback) sw :
  let out := snd (Main.runHandlers respond showSheets cfg
                    ((fun cb => CommandHandlerCalled cb msg) <$> cbs) sw) in
  length out <= length cbs /\ Forall (toSender msg) out.
Proof.
  revert sw. induction cbs as [|cb cbs IH]; intros sw; simpl;
    [split; [lia | constructor]|].
  pose proof (handlerBody_sends cfg cb msg sw) as Hcb.
  destruct (Main.handlerBody respond showSheets cfg cb msg sw) as [sw1 r].
  specialize (IH sw1). simpl in IH.
  destruct (Main.runHandlers respond showSheets cfg _ sw1) as [sw2 rest].
  simpl in *. destruct IH as [IHl IHf].
  destruct r as [out|e].
  - destruct Hcb as [Hl Hf]. rewrite length_app.
    split; [lia | by apply Forall_app].
  - rewrite app_nil_l. split; [lia | done].
Qed.

Lemma bootstrap_deliver cfg (join : string -> string -> string)
      (dirname : string) (lw : Logger.World) msg :
  deliver (Main.bot (fst (Main.bootstrap (Main.new cfg join dirname) lw))) msg
  = (fun cb => CommandHandlerCalled cb msg) <$>
      (CommandHandler.handler <$>
         filter (fun cmd =>
                   startsWith (default "" (TelegramBot.text msg))
                              ("/" +:+ CommandHandler.command cmd) = true)
                [Main.start; Main.help; Main.about; Main.sheetlink;
                 Main.addenglishword])
    /\ length (filter (fun cmd =>
                        startsWith (default "" (TelegramBot.text msg))
                                   ("/" +:+ CommandHandler.command cmd) = true)
                     [Main.start; Main.help; Main.about; Main.sheetlink;
                      Main.addenglishword]) <= 1.
Proof.
  rewrite bootstrap_bot.
  set (cs := [RegisterCommand Main.start; RegisterCommand Main.help;
              RegisterCommand Main.about; RegisterCommand Main.sheetlink;
              RegisterCommand Main.addenglishword]).
  assert (Forall (fun cmd => isLiteralName (CommandHandler.command cmd) = true)
                 (registeredCommands cs)) as Hlit by repeat constructor.
  destruct (commandCalls_prefixFree (EnvConfig.telegramToken cfg)
              defaultOptions cs msg Hlit eq_refl) as [Hlen Heq].
  rewrite deliver_run.
  assert (handleMessage (run cs (new (EnvConfig.telegramToken cfg)
                                     defaultOptions)) msg = []) as ->.
  { unfold handleMessage. by destruct (TelegramBot.text msg) as [[|c txt]|]. }
  simpl. rewrite Heq in *. rewrite length_fmap in Hlen.
  split; [|exact Hlen]. by rewrite <- list_fmap_compose.
Qed.

Lemma bootstrap_deliver_command cfg (join : string -> string -> string)
      (dirname : string) (lw : Logger.World) msg (txt : string)
      (cmd : CommandHandler.t) :
  TelegramBot.text msg = Some txt ->
  cmd ∈ [Main.start; Main.help; Main.about; Main.sheetlink;
         Main.addenglishword] ->
  startsWith txt ("/" +:+ CommandHandler.command cmd) = true ->
  deliver (Main.bot (fst (Main.bootstrap (Main.new cfg join dirname) lw))) msg
  = [CommandHandlerCalled (CommandHandler.handler cmd) msg].
Proof.
  intros Htxt Hcmd Hstart.
  destruct (bootstrap_deliver cfg join dirname lw msg) as [-> Hlen].
  rewrite Htxt in *. simpl in *.
  set (l := filter _ _) in *.
  assert (cmd ∈ l) as Hin by by apply list_elem_of_filter.
  destruct l as [|x [|y l]]; simpl in Hlen; [by apply elem_of_nil in Hin| |lia].
  apply list_elem_of_singleton in Hin as ->. done.
Qed.

(** X25.  Whatever message comes in and whatever the state of the Google
    service, the bootstrapped application sends back at most one message,
    and it sends it to the chat the message came from. *)
Theorem replies_go_to_the_sender
        cfg (join : string -> string -> string) (dirname : string)
        (lw : Logger.World) msg sw :
  let app := fst (Main.bootstrap (Main.new cfg join dirname) lw) in
  let out := snd (Main.receive respond showSheets cfg app msg sw) in
  length out <= 1 /\ Forall (toSender msg) out.
Proof.
  intros app out. subst app out. unfold Main.receive.
  destruct (bootstrap_deliver cfg join dirname lw msg) as [-> Hlen].
  pose proof (runHandlers_commands cfg msg
                (CommandHandler.handler <$>
                   filter (fun cmd =>
                             startsWith (default "" (TelegramBot.text msg))
                               ("/" +:+ CommandHandler.command cmd) = true)
                          [Main.start; Main.help; Main.about; Main.sheetlink;
                           Main.addenglishword]) sw) as [Hl Hf].
  rewrite length_fmap in Hl. split; [lia | done].
Qed.

(** X26.  The commands [start], [help] and [about] are answered without
    the Google service: one message with the text of the command, to the
    chat the message came from, the service and its world left as they
    were. *)
Theorem common_commands_answer_at_once
        cfg (join : string -> string -> string) (dirname : string)
        (lw : Logger.World) msg (txt : string) sw :
  let app := fst (Main.bootstrap (Main.new cfg join dirname) lw) in
  TelegramBot.text msg = Some txt ->
  (startsWith txt "/start" = true ->
   Main.receive respond showSheets cfg app msg sw
   = (sw, [TelegramBotCalls.SendMessage (inl (TelegramBot.chat_id msg))
             Main.startText None]))
  /\ (startsWith txt "/help" = true ->
      Main.receive respond showSheets cfg app msg sw
      = (sw, [TelegramBotCalls.SendMessage (inl (TelegramBot.chat_id msg))
                Main.helpText None]))
  /\ (startsWith txt "/about" = true ->
      Main.receive respond showSheets cfg app msg sw
      = (sw, [TelegramBotCalls.SendMessage (inl (TelegramBot.chat_id msg))
                Main.aboutText None])).
Proof.
  intros app Htxt. subst app. unfold Main.receive.
  repeat split; intros Hstart.
  - rewrite (bootstrap_deliver_command cfg join dirname lw msg txt Main.start
               Htxt); [done | set_solver | done].
  - rewrite (bootstrap_deliver_command cfg join dirname lw msg txt Main.help
               Htxt); [done | set_solver | done].
  - rewrite (bootstrap_deliver_command cfg join dirname lw msg txt Main.about
               Htxt); [done | set_solver | done].
Qed.

(** X27.  A [/sheetlink] or [/addenglishword] message that comes in while
    the Google service has no client is not answered: the handler throws,
    nothing is sent and no remote call is made; the error is logged
    once. *)
Theorem sheet_commands_need_the_client
        cfg (join : string -> string -> string) (dirname : string)
        (lw : Logger.World) msg (txt : string) (cmd : CommandHandler.t)
        (s : GoogleApiService.t) (w : GoogleApiService.World) :
  let app := fst (Main.bootstrap (Main.new cfg join dirname) lw) in
  TelegramBot.text msg = Some txt ->
  cmd ∈ [Main.sheetlink; Main.addenglishword] ->
  startsWith txt ("/" +:+ CommandHandler.command cmd) = true ->
  GoogleApiService.client s = None ->
  Main.receive respond showSheets cfg app msg (s, w)
  = ((s, GoogleApiService.mkWorld
           (GoogleApiService.console w
            ++ [GoogleApiService.ConsoleError
                  "Lỗi khi lấy metadata của spreadsheet:"
                  GoogleApiService.notInitialized])
           (GoogleApiService.requests w)),
     []).
Proof.
  intros app Htxt Hcmd Hstart Hc. subst app. unfold Main.receive.
  rewrite (bootstrap_deliver_command cfg join dirname lw msg txt cmd Htxt);
    [|set_solver|done].
  apply elem_of_cons in Hcmd as [->|Hcmd];
    [|apply list_elem_of_singleton in Hcmd as ->];
    simpl; unfold GoogleApiService.getSheetMetadata,
      GoogleApiService.try_catch, GoogleApiService.bind,
      GoogleApiService.getService, GoogleApiService.console_error,
      GoogleApiService.throw; simpl; by rewrite Hc.
Qed.

(** X28.  A [/sheetlink] message that comes in when the Google service
    has a client and the remote side answers is answered with the link of
    the configured spreadsheet, after one call for the metadata of that
    spreadsheet whose sheets are printed on the console. *)
Theorem sheetlink_answers_with_the_configured_link
        cfg (join : string -> string -> string) (dirname : string)
        (lw : Logger.World) msg (txt : string)
        (s : GoogleApiService.t) (w : GoogleApiService.World)
        (c : GoogleApiService.JWT) (d : data) :
  let app := fst (Main.bootstrap (Main.new cfg join dirname) lw) in
  let res := Main.receive respond showSheets cfg app msg (s, w) in
  TelegramBot.text msg = Some txt ->
  startsWith txt "/sheetlink" = true ->
  GoogleApiService.client s = Some c ->
  (forall i,
      respond (GoogleApiService.requests w) i
        (GoogleApiService.SpreadsheetsGet (EnvConfig.spreadsheetId cfg))
      = inl d) ->
  snd res
  = [TelegramBotCalls.SendMessage
       (inl (TelegramBot.chat_id msg))
       ("Google Sheet Link: https://docs.google.com/spreadsheets/d/"
        +:+ EnvConfig.spreadsheetId cfg) None]
  /\ GoogleApiService.console (snd (fst res))
     = GoogleApiService.console w
       ++ [GoogleApiService.ConsoleLog (showSheets d)]
  /\ snd <$> GoogleApiService.requests (snd (fst res))
     = (snd <$> GoogleApiService.requests w)
       ++ [GoogleApiService.SpreadsheetsGet (EnvConfig.spreadsheetId cfg)].
Proof.
  intros app res Htxt Hstart Hc Hd. subst app res. unfold Main.receive.
  rewrite (bootstrap_deliver_command cfg join dirname lw msg txt
             Main.sheetlink Htxt); [|set_solver|done].
  simpl. unfold GoogleApiService.getSheetMetadata,
    GoogleApiService.try_catch, GoogleApiService.bind,
    GoogleApiService.getService, GoogleApiService.send,
    GoogleApiService.console_log, GoogleApiService.ret; simpl.
  rewrite Hc.
  destruct (GoogleApiService.services s !! GoogleApiService.sheets);
    simpl; rewrite Hd; simpl; by rewrite fmap_app.
Qed.

End Replies.

Lemma common_commands_answer_at_once_witness :
  (TelegramBot.text (Sample.message "/start") = Some "/start"
   /\ startsWith "/start" "/start" = true)
  /\ Main.receive SampleRemote.accept SampleRemote.showSheets SampleRemote.cfg
       SampleRemote.app (Sample.message "/start") SampleRemote.fresh
     = (SampleRemote.fresh,
        [TelegramBotCalls.SendMessage (inl 42%Z) Main.startText None]).
Proof.
  split; [by split|].
  exact (proj1 (common_commands_answer_at_once
                  SampleRemote.accept SampleRemote.showSheets SampleRemote.cfg
                  SampleRemote.join "/srv" SampleRemote.logWorld
                  (Sample.message "/start") "/start" SampleRemote.fresh
                  eq_refl) eq_refl).
Defined.

Lemma sheet_commands_need_the_client_witness :
  (TelegramBot.text (Sample.message "/sheetlink") = Some "/sheetlink"
   /\ (Main.sheetlink ∈ [Main.sheetlink; Main.addenglishword])
   /\ startsWith "/sheetlink"
                 ("/" +:+ CommandHandler.command Main.sheetlink) = true
   /\ GoogleApiService.client (fst SampleRemote.fresh) = None)
  /\ snd (Main.receive SampleRemote.accept SampleRemote.showSheets
            SampleRemote.cfg SampleRemote.app (Sample.message "/sheetlink")
            SampleRemote.fresh) = [].
Proof.
  assert (Main.sheetlink ∈ [Main.sheetlink; Main.addenglishword]) as H
    by left.
  split; [by repeat split|].
  exact (f_equal snd
           (sheet_commands_need_the_client
              SampleRemote.accept SampleRemote.showSheets SampleRemote.cfg
              SampleRemote.join "/srv" SampleRemote.logWorld
              (Sample.message "/sheetlink") "/sheetlink" Main.sheetlink
              (fst SampleRemote.fresh) (snd SampleRemote.fresh)
              eq_refl H eq_refl eq_refl)).
Defined.

Lemma sheetlink_answers_with_the_configured_link_witness :
  (TelegramBot.text (Sample.message "/sheetlink") = Some "/sheetlink"
   /\ startsWith "/sheetlink" "/sheetlink" = true
   /\ GoogleApiService.client SampleRemote.ready = Some 7
   /\ forall i,
       SampleRemote.accept [] i
         (GoogleApiService.SpreadsheetsGet
            (EnvConfig.spreadsheetId SampleRemote.cfg))
       = inl SampleRemote.sheet)
  /\ snd (Main.receive SampleRemote.accept SampleRemote.showSheets
            SampleRemote.cfg SampleRemote.app (Sample.message "/sheetlink")
            (SampleRemote.ready, GoogleApiService.mkWorld [] []))
     = [TelegramBotCalls.SendMessage
          (inl 42%Z)
          "Google Sheet Link: https://docs.google.com/spreadsheets/d/sheet-1"
          None].
Proof.
  split; [by repeat split|].
  exact (proj1 (sheetlink_answers_with_the_configured_link
                  SampleRemote.accept SampleRemote.showSheets SampleRemote.cfg
                  SampleRemote.join "/srv" SampleRemote.logWorld
                  (Sample.message "/sheetlink") "/sheetlink"
                  SampleRemote.ready (GoogleApiService.mkWorld [] [])
                  7 SampleRemote.sheet eq_refl eq_refl eq_refl
                  (fun _ => eq_refl))).
Defined.
